(** * Escapade Locale: query orchestration and grounded result resolution

    A shallow embedding of [src/App.tsx] (the [App] component: its state,
    [handleSearch], and the rendering of the result and of the grounding
    chunks) and of [src/services/geminiService.ts] ([searchActivities]),
    followed by the properties of the specification that were checked
    against them.

    Conventions of the embedding.
    - TypeScript's static types are followed: an interface becomes a record,
      an optional member or a [T | null] becomes an [option], and [any]
      becomes a dynamically typed JavaScript value ([JS.value]).
    - An [async] function is a tree of effects ([Async.prog]) that is
      suspended at its [await] and resumed by the settlement of the awaited
      promise; exceptions, [try]/[catch]/[finally] and React's state setters
      are constructors or combinators of that tree.
    - Strings are byte strings holding the UTF-8 encoding of the source text. *)

From Stdlib Require Import String ZArith List Bool Lia SpecFloat DecimalString.
From stdpp Require Import base option list strings.

#[local] Open Scope string_scope.
#[local] Set Warnings "-register-all".

(* ===================================================================== *)
(** ** JavaScript values, truthiness, property access                     *)
(* ===================================================================== *)

Module JS.

(** A Number is an IEEE 754 double: a signed zero, a signed infinity, NaN,
    or a sign, a mantissa and an exponent. *)
Definition number : Type := spec_float.

(** The values a parsed JSON payload can hold, plus [undefined]. *)
Inductive value : Type :=
| VUndefined
| VNull
| VBool (b : bool)
| VNum (n : number)
| VStr (s : string)
| VArr (elems : list value)
| VObj (props : list (string * value)).

(** What a [throw] or a rejected promise carries. *)
Inductive exn : Type :=
| TypeError (message : string)
| Thrown (v : value).

(** An expression either throws or yields a value. *)
Definition completion (A : Type) : Type := exn + A.

Definition throw {A : Type} (e : exn) : completion A := inl e.

#[global] Instance completion_ret : MRet completion := fun A a => inr a.

#[global] Instance completion_bind : MBind completion := fun A B f m =>
  match m with
  | inl e => inl e
  | inr a => f a
  end.

#[global] Instance completion_fmap : FMap completion := fun A B f m =>
  match m with
  | inl e => inl e
  | inr a => inr (f a)
  end.

(** ToBoolean on numbers: [+0], [-0] and [NaN] are falsy. *)
Definition number_truthy (n : number) : bool :=
  match n with
  | S754_zero _ | S754_nan => false
  | S754_infinity _ | S754_finite _ _ _ => true
  end.

(** ToBoolean on strings: only the empty string is falsy. *)
Definition string_truthy (s : string) : bool :=
  match s with
  | EmptyString => false
  | String _ _ => true
  end.

(** ToBoolean. *)
Definition truthy (v : value) : bool :=
  match v with
  | VUndefined | VNull => false
  | VBool b => b
  | VNum n => number_truthy n
  | VStr s => string_truthy s
  | VArr _ | VObj _ => true
  end.

(** [a || b] on strings. *)
Definition or_string (a : string) (b : string) : string :=
  if string_truthy a then a else b.

(** [a || b] where [a] has type [string | undefined]. *)
Definition or_optional_string (a : option string) (b : string) : string :=
  match a with
  | Some s => or_string s b
  | None => b
  end.

Fixpoint lookup_prop (key : string) (props : list (string * value)) : value :=
  match props with
  | [] => VUndefined
  | (k, v) :: rest => if String.eqb k key then v else lookup_prop key rest
  end.

(** The own data property [key] of a value that is neither [undefined]
    nor [null], for the names the program reads ([maps], [web], [uri],
    [title]): an object yields its property or [undefined]; none of those
    names is a built-in property of an array, a string, a number or a
    boolean, which therefore yield [undefined]. *)
Definition member (v : value) (key : string) : value :=
  match v with
  | VObj props => lookup_prop key props
  | _ => VUndefined
  end.

(** [v.key]: reading a property of [undefined] or [null] throws a
    TypeError. *)
Definition get (v : value) (key : string) : completion value :=
  match v with
  | VUndefined =>
      throw (TypeError ("Cannot read properties of undefined (reading '" ++ key ++ "')"))
  | VNull =>
      throw (TypeError ("Cannot read properties of null (reading '" ++ key ++ "')"))
  | _ => mret (member v key)
  end.

(** [`${n}`] for an integer-valued number (below 10^21 in magnitude, where
    Number::toString is the decimal numeral). *)
Definition Number_toString (n : Z) : string :=
  NilZero.string_of_int (Z.to_int n).

(** [haystack.includes(needle)], as a proposition. *)
Definition includes (haystack needle : string) : Prop :=
  exists before after : string, haystack = before ++ needle ++ after.

(** The line feed of a multi-line template literal. *)
Definition LF : string := String (Ascii.ascii_of_nat 10) EmptyString.

End JS.

Import JS.

(* ===================================================================== *)
(** ** The interface of the generative-retrieval SDK                      *)
(* ===================================================================== *)

Module genai.

Record LatLng : Type := { latitude : number; longitude : number }.

Record RetrievalConfig : Type := { latLng : option LatLng }.

Record ToolConfig : Type := { retrievalConfig : RetrievalConfig }.

(** [{ googleMaps: {} }] and [{ googleSearch: {} }]. *)
Inductive Tool : Type := googleMaps | googleSearch.

Record GenerateContentConfig : Type :=
  { tools : list Tool; toolConfig : ToolConfig }.

Record GenerateContentParameters : Type :=
  { model : string; contents : string; config : GenerateContentConfig }.

(** The client object built by [new GoogleGenAI({ apiKey })]. *)
Record GoogleGenAI : Type := { apiKey : option string }.

(** Modelled from the spec: the response type of the SDK, which is imported
    by the source but declared outside it. Section 6 gives it as
    [ExternalResponse{ text: string?, candidates: [{ groundingMetadata:
    { groundingChunks: [RawGroundingChunk] }? }]? }]; every link read
    through [?.] by the source is optional here, and a chunk is a
    dynamically typed value (the source keeps the chunks in an [any[]]). *)
Record GroundingMetadata : Type :=
  { groundingChunks : option (list value) }.

(** Modelled from the spec: one element of [candidates], with its optional
    [groundingMetadata]. *)
Record Candidate : Type :=
  { groundingMetadata : option GroundingMetadata }.

(** Modelled from the spec: the response, with its optional [text] and its
    optional list of [candidates]. *)
Record GenerateContentResponse : Type :=
  { text : option string; candidates : option (list Candidate) }.

End genai.

(* ===================================================================== *)
(** ** Asynchronous programs                                              *)
(* ===================================================================== *)

Module Async.

(** The effects [handleSearch] performs on its surroundings. *)
Inductive effect : Type :=
| PreventDefault
| SetLoading (b : bool)
| SetResult (r : option string)
| SetGroundingChunks (chunks : list value)
| ConsoleError (label : string) (error : exn).

(** The body of an [async] function. [New] constructs the SDK client (the
    constructor may throw), [Await] suspends on the promise returned by
    [ai.models.generateContent(params)] until it settles. *)
Inductive prog (A : Type) : Type :=
| Ret (a : A)
| Throw (e : exn)
| Do (f : effect) (k : prog A)
| New (key : option string) (k : completion genai.GoogleGenAI -> prog A)
| Await (ai : genai.GoogleGenAI) (params : genai.GenerateContentParameters)
        (k : completion genai.GenerateContentResponse -> prog A).

Arguments Ret {A} a.
Arguments Throw {A} e.
Arguments Do {A} f k.
Arguments New {A} key k.
Arguments Await {A} ai params k.

Fixpoint bind {A B : Type} (m : prog A) (f : A -> prog B) : prog B :=
  match m with
  | Ret a => f a
  | Throw e => Throw e
  | Do x k => Do x (bind k f)
  | New key k => New key (fun r => bind (k r) f)
  | Await ai params k => Await ai params (fun r => bind (k r) f)
  end.

#[global] Instance prog_ret : MRet prog := fun A a => Ret a.
#[global] Instance prog_bind : MBind prog := fun A B f m => bind m f.

(** [try { body } catch (error) { handler error }]. *)
Fixpoint try_catch {A : Type} (body : prog A) (handler : exn -> prog A) : prog A :=
  match body with
  | Ret a => Ret a
  | Throw e => handler e
  | Do x k => Do x (try_catch k handler)
  | New key k => New key (fun r => try_catch (k r) handler)
  | Await ai params k => Await ai params (fun r => try_catch (k r) handler)
  end.

(** [try { body } finally { finalizer }]: the finalizer runs on both exits
    and the completion of the body is kept. *)
Fixpoint try_finally {A : Type} (body : prog A) (finalizer : prog unit) : prog A :=
  match body with
  | Ret a => bind finalizer (fun _ => Ret a)
  | Throw e => bind finalizer (fun _ => Throw e)
  | Do x k => Do x (try_finally k finalizer)
  | New key k => New key (fun r => try_finally (k r) finalizer)
  | Await ai params k => Await ai params (fun r => try_finally (k r) finalizer)
  end.

Definition try_catch_finally {A : Type}
    (body : prog A) (handler : exn -> prog A) (finalizer : prog unit) : prog A :=
  try_finally (try_catch body handler) finalizer.

Definition perform (f : effect) : prog unit := Do f (Ret tt).

(** [new GoogleGenAI({ apiKey: key })]. *)
Definition new_GoogleGenAI (key : option string) : prog genai.GoogleGenAI :=
  New key (fun r => match r with inl e => Throw e | inr ai => Ret ai end).

(** [await ai.models.generateContent(params)]: a rejection is rethrown at
    the [await]. *)
Definition await_generateContent
    (ai : genai.GoogleGenAI) (params : genai.GenerateContentParameters)
  : prog genai.GenerateContentResponse :=
  Await ai params (fun r => match r with inl e => Throw e | inr response => Ret response end).

End Async.

Import Async.

(* ===================================================================== *)
(** ** [src/App.tsx]                                                      *)
(* ===================================================================== *)

Module Vite.

(** [import.meta.env]: the credential is a string or is not defined. *)
Record ImportMetaEnv : Type := { VITE_GEMINI_API_KEY : option string }.

End Vite.

Module App.

(** [{ lat: number, lng: number }]. *)
Record Coords : Type := { lat : number; lng : number }.

(** The eight [useState] cells of the component. [radius] only ever holds
    30 or [parseInt] of the value of the range slider (5 to 100 by steps
    of 5), hence an integer. *)
Record State : Type :=
  { location : string;
    startDate : string;
    endDate : string;
    radius : Z;
    loading : bool;
    result : option string;
    groundingChunks : list value;
    userCoords : option Coords }.

Definition fallback_text : string :=
  "Désolé, je n'ai pas trouvé d'activités pour cette période.".

Definition error_text : string :=
  "Une erreur est survenue lors de la recherche. Veuillez réessayer.".

(** [location || 'ma position actuelle']. *)
Definition destination (st : State) : string :=
  or_string (location st) "ma position actuelle".

(** The template literal of lines 66 to 78. *)
Definition prompt (st : State) : string :=
  "Je planifie un voyage à " ++ destination st ++ " du " ++ startDate st
    ++ " au " ++ endDate st ++ "." ++ LF ++
  "      Je souhaite découvrir les activités suivantes dans un rayon de "
    ++ Number_toString (radius st) ++ "km :" ++ LF ++
  "      1. Marchés (locaux, artisanaux)" ++ LF ++
  "      2. Brocantes et vide-greniers (consulte spécifiquement vide-greniers.org pour cette zone et ces dates)" ++ LF ++
  "      3. Événements locaux et culturels (consulte les agendas municipaux et les sites des mairies de la zone)" ++ LF ++
  "      4. Escape games" ++ LF ++
  "      5. Fêtes de village et festivals" ++ LF ++
  "      6. Recycleries et ressourceries" ++ LF ++
  LF ++
  "      Organise ta réponse jour par jour du " ++ startDate st ++ " au "
    ++ endDate st ++ ". " ++ LF ++
  "      Pour chaque jour, liste les événements spécifiques ou les lieux ouverts qui correspondent à mes critères." ++ LF ++
  "      Sois précis sur les lieux, les horaires et cite tes sources si possible (liens vers vide-greniers.org ou sites de mairies)." ++ LF ++
  "      Utilise des titres clairs pour chaque jour.".

(** The [config] of lines 83 to 93. *)
Definition config (st : State) : genai.GenerateContentConfig :=
  {| genai.tools := [genai.googleMaps; genai.googleSearch];
     genai.toolConfig :=
       {| genai.retrievalConfig :=
            {| genai.latLng :=
                 match userCoords st with
                 | Some c => Some {| genai.latitude := lat c; genai.longitude := lng c |}
                 | None => None
                 end |} |} |}.

(** The argument of [generateContent], lines 80 to 94. *)
Definition request (st : State) : genai.GenerateContentParameters :=
  {| genai.model := "gemini-2.5-flash";
     genai.contents := prompt st;
     genai.config := config st |}.

(** [response.text || "Désolé, ..."], line 96. *)
Definition itinerary (response : genai.GenerateContentResponse) : string :=
  or_optional_string (genai.text response) fallback_text.

(** [response.candidates?.[0]?.groundingMetadata?.groundingChunks || []],
    line 99: each [?.] is a bind of [option]; an array is truthy, so [||]
    only replaces [undefined]. *)
Definition chunks_of (response : genai.GenerateContentResponse) : list value :=
  default []
    (candidates ← genai.candidates response;
     candidate ← candidates !! 0;
     metadata ← genai.groundingMetadata candidate;
     genai.groundingChunks metadata).

(** [handleSearch], lines 57 to 107. The closure reads [location],
    [startDate], [endDate], [radius] and [userCoords] of the render [st]
    in which it was created. *)
Definition handleSearch (env : Vite.ImportMetaEnv) (st : State) : prog unit :=
  perform PreventDefault;;
  perform (SetLoading true);;
  perform (SetResult None);;
  perform (SetGroundingChunks []);;
  try_catch_finally
    (ai ← new_GoogleGenAI (Vite.VITE_GEMINI_API_KEY env);
     response ← await_generateContent ai (request st);
     perform (SetResult (Some (itinerary response)));;
     let chunks := chunks_of response in
     perform (SetGroundingChunks chunks))
    (fun error =>
       perform (ConsoleError "Search error:" error);;
       perform (SetResult (Some error_text)))
    (perform (SetLoading false)).

(** *** Rendering *)

Inductive Icon : Type := MapPin | Search.

(** The [<a key href>] element built for a chunk: its icon tells a place
    from a web page, its label is the [<span>]'s child. *)
Record Anchor : Type :=
  { key : nat; href : value; icon : Icon; label : value }.

(** The callback of [groundingChunks.map], lines 240 to 279; [None] is the
    [null] the callback returns for a chunk of neither shape. *)
Definition render_chunk (chunk : value) (idx : nat) : completion (option Anchor) :=
  maps ← get chunk "maps";
  if truthy maps then
    uri ← get maps "uri";
    title ← get maps "title";
    mret (Some {| key := idx; href := uri; icon := MapPin; label := title |})
  else
    web ← get chunk "web";
    if truthy web then
      uri ← get web "uri";
      title ← get web "title";
      mret (Some {| key := idx; href := uri; icon := Search; label := title |})
    else mret None.

(** [groundingChunks.map(callback)], from index [idx] on: the first
    exception ends the iteration. *)
Fixpoint map_chunks (idx : nat) (chunks : list value) : completion (list (option Anchor)) :=
  match chunks with
  | [] => mret []
  | chunk :: rest =>
      a ← render_chunk chunk idx;
      others ← map_chunks (S idx) rest;
      mret (a :: others)
  end.

(** [groundingChunks.length > 0 && (...)], line 234: [None] when the
    sources block is not rendered at all. *)
Definition sources_block (st : State) : completion (option (list (option Anchor))) :=
  match groundingChunks st with
  | [] => mret None
  | _ :: _ => Some <$> map_chunks 0 (groundingChunks st)
  end.

(** React renders no node for a [null] child: the links on the page. *)
Definition links (block : option (list (option Anchor))) : list Anchor :=
  match block with
  | None => []
  | Some children => omap id children
  end.

Inductive View : Type :=
| Programme (markdown : string) (sources : option (list (option Anchor)))
| Invitation
| Nothing.

(** The results section, lines 213 to 303:
    [result ? (...) : !loading && (...)]. *)
Definition results_section (st : State) : completion View :=
  match result st with
  | Some r =>
      if string_truthy r then
        block ← sources_block st;
        mret (Programme r block)
      else mret (if loading st then Nothing else Invitation)
  | None => mret (if loading st then Nothing else Invitation)
  end.

(** [disabled={loading}] on the submit button, line 193. *)
Definition submit_disabled (st : State) : bool := loading st.

End App.

(* ===================================================================== *)
(** ** [src/services/geminiService.ts]                                    *)
(* ===================================================================== *)

Module geminiService.

Inductive ActivityType : Type :=
| market | flea_market | escape_game | festival | recycling | other.

(** The member [location] of the source is [activity_location] here, the
    name being taken by [SearchParams] below. *)
Record Activity : Type :=
  { id : string;
    name : string;
    type : ActivityType;
    description : string;
    activity_location : string;
    date : option string;
    link : option string }.

(** [radius: number] is held as an integer: the model covers the integer
    radii, and its rendering in the prompt is that of the template literal
    for the safe integers (up to 2^53 in magnitude). *)
Record SearchParams : Type :=
  { location : string;
    startDate : string;
    endDate : string;
    radius : Z;
    lat : option number;
    lng : option number }.

(** The template literal of lines 25 to 34. *)
Definition prompt (params : SearchParams) : string :=
  "Trouve des activités à faire à " ++ location params
    ++ " et dans un rayon de " ++ Number_toString (radius params)
    ++ "km entre le " ++ startDate params ++ " et le " ++ endDate params ++ "." ++ LF ++
  "  Je recherche spécifiquement :" ++ LF ++
  "  - Les marchés (marchés alimentaires, artisanaux)" ++ LF ++
  "  - Les brocantes et vide-greniers" ++ LF ++
  "  - Les escape games ouverts" ++ LF ++
  "  - Les fêtes de village et événements locaux" ++ LF ++
  "  - Les recycleries et ressourceries" ++ LF ++
  "  " ++ LF ++
  "  Pour chaque activité, fournis le nom, le type, une courte description, le lieu précis et si possible la date spécifique ou les jours d'ouverture." ++ LF ++
  "  Réponds sous forme de liste structurée.".

(** [params.lat && params.lng ? { latitude, longitude } : undefined],
    lines 43 to 46: a missing, zero or NaN coordinate is falsy. *)
Definition latLng (params : SearchParams) : option genai.LatLng :=
  match lat params, lng params with
  | Some la, Some ln =>
      if number_truthy la && number_truthy ln
      then Some {| genai.latitude := la; genai.longitude := ln |}
      else None
  | _, _ => None
  end.

Definition request (params : SearchParams) : genai.GenerateContentParameters :=
  {| genai.model := "gemini-2.5-flash";
     genai.contents := prompt params;
     genai.config :=
       {| genai.tools := [genai.googleMaps];
          genai.toolConfig :=
            {| genai.retrievalConfig := {| genai.latLng := latLng params |} |} |} |}.

(** [searchActivities], lines 22 to 55: the awaited response is bound and
    never read. *)
Definition searchActivities (env : Vite.ImportMetaEnv) (params : SearchParams)
  : prog (list Activity) :=
  ai ← new_GoogleGenAI (Vite.VITE_GEMINI_API_KEY env);
  response ← await_generateContent ai (request params);
  mret [].

End geminiService.

(* ===================================================================== *)
(** ** The page: running the handlers against the browser and the service *)
(* ===================================================================== *)

Module Page.

(** React's setters replace the cell; the other effects leave the state. *)
Definition apply (f : effect) (st : App.State) : App.State :=
  match f with
  | PreventDefault => st
  | SetLoading b =>
      {| App.location := App.location st; App.startDate := App.startDate st;
         App.endDate := App.endDate st; App.radius := App.radius st;
         App.loading := b; App.result := App.result st;
         App.groundingChunks := App.groundingChunks st;
         App.userCoords := App.userCoords st |}
  | SetResult r =>
      {| App.location := App.location st; App.startDate := App.startDate st;
         App.endDate := App.endDate st; App.radius := App.radius st;
         App.loading := App.loading st; App.result := r;
         App.groundingChunks := App.groundingChunks st;
         App.userCoords := App.userCoords st |}
  | SetGroundingChunks chunks =>
      {| App.location := App.location st; App.startDate := App.startDate st;
         App.endDate := App.endDate st; App.radius := App.radius st;
         App.loading := App.loading st; App.result := App.result st;
         App.groundingChunks := chunks;
         App.userCoords := App.userCoords st |}
  | ConsoleError _ _ => st
  end.

(** How a run of an asynchronous body stops: it completes (normally or by
    an exception that nothing caught), or it is suspended on a call of the
    service with the rest of the body as continuation. *)
Inductive outcome (A : Type) : Type :=
| Finished (c : completion A)
| Suspended (ai : genai.GoogleGenAI) (params : genai.GenerateContentParameters)
            (k : completion genai.GenerateContentResponse -> prog A).

Arguments Finished {A} c.
Arguments Suspended {A} ai params k.

Record Run (A : Type) : Type :=
  { final : App.State; performed : list effect; stopped : outcome A }.

Arguments final {A} r.
Arguments performed {A} r.
Arguments stopped {A} r.

(** The SDK constructor, as the environment decides it: it throws
    [ctor_fault] or returns a client holding the key. *)
Definition construct (ctor_fault : option exn) (key : option string)
  : completion genai.GoogleGenAI :=
  match ctor_fault with
  | Some e => inl e
  | None => inr {| genai.apiKey := key |}
  end.

(** Runs a body from state [st] up to its completion or its first
    [await], performing its effects in order. *)
Fixpoint run {A : Type} (ctor_fault : option exn) (p : prog A) (st : App.State) : Run A :=
  match p with
  | Ret a => {| final := st; performed := []; stopped := Finished (inr a) |}
  | Throw e => {| final := st; performed := []; stopped := Finished (inl e) |}
  | Do f k =>
      let r := run ctor_fault k (apply f st) in
      {| final := final r; performed := f :: performed r; stopped := stopped r |}
  | New key k => run ctor_fault (k (construct ctor_fault key)) st
  | Await ai params k =>
      {| final := st; performed := []; stopped := Suspended ai params k |}
  end.

(** A call of the service that has not settled yet, with the suspended
    rest of the [handleSearch] that issued it. *)
Record Pending : Type :=
  { client : genai.GoogleGenAI;
    params : genai.GenerateContentParameters;
    resume : completion genai.GenerateContentResponse -> prog unit }.

Record Page : Type :=
  { state : App.State;
    log : list effect;
    inflight : list Pending;
    unhandled : list exn }.

(** Folds the result of a run into the page: a suspended body joins the
    calls in flight, an exception that escaped the body is an unhandled
    rejection. *)
Definition absorb (r : Run unit) (log0 : list effect) (others : list Pending)
    (unhandled0 : list exn) : Page :=
  {| state := final r;
     log := log0 ++ performed r;
     inflight :=
       match stopped r with
       | Suspended ai params k =>
           others ++ [{| client := ai; params := params; resume := k |}]
       | Finished _ => others
       end;
     unhandled :=
       match stopped r with
       | Finished (inl e) => unhandled0 ++ [e]
       | _ => unhandled0
       end |}.

(** [handleSearch] called on the current render, whatever the page shows. *)
Definition call_handleSearch (env : Vite.ImportMetaEnv) (ctor_fault : option exn)
    (page : Page) : Page :=
  absorb (run ctor_fault (App.handleSearch env (state page)) (state page))
         (log page) (inflight page) (unhandled page).

Inductive event : Type :=
| Submit (ctor_fault : option exn)
| Settle (i : nat) (settlement : completion genai.GenerateContentResponse)
| ChangeLocation (v : string)
| ChangeRadius (v : Z)
| ChangeStartDate (v : string)
| ChangeEndDate (v : string)
| PositionFound (c : App.Coords)
| PositionError (error : exn).

Definition edit (st : App.State) (ev : event) : App.State :=
  {| App.location := match ev with ChangeLocation v => v | _ => App.location st end;
     App.startDate := match ev with ChangeStartDate v => v | _ => App.startDate st end;
     App.endDate := match ev with ChangeEndDate v => v | _ => App.endDate st end;
     App.radius := match ev with ChangeRadius v => v | _ => App.radius st end;
     App.loading := App.loading st;
     App.result := App.result st;
     App.groundingChunks := App.groundingChunks st;
     App.userCoords := match ev with PositionFound c => Some c | _ => App.userCoords st end |}.

(** One event of the page.
    - [Submit]: the user submits the form; a form whose submit button is
      disabled (line 193) is not submitted, otherwise [onSubmit] calls
      [handleSearch] (line 132).
    - [Settle i s]: the [i]-th call in flight settles with [s] and the body
      suspended on it resumes.
    - the [onChange] handlers of the inputs and the two callbacks of
      [getCurrentPosition] (lines 43 to 55). *)
Definition step (env : Vite.ImportMetaEnv) (page : Page) (ev : event) : Page :=
  match ev with
  | Submit ctor_fault =>
      if App.submit_disabled (state page) then page
      else call_handleSearch env ctor_fault page
  | Settle i settlement =>
      match inflight page !! i with
      | Some p =>
          absorb (run None (resume p settlement) (state page))
                 (log page) (delete i (inflight page)) (unhandled page)
      | None => page
      end
  | PositionError error =>
      {| state := state page;
         log := log page ++ [ConsoleError "Error getting location:" error];
         inflight := inflight page;
         unhandled := unhandled page |}
  | _ =>
      {| state := edit (state page) ev;
         log := log page;
         inflight := inflight page;
         unhandled := unhandled page |}
  end.

Definition exec (env : Vite.ImportMetaEnv) (page : Page) (evs : list event) : Page :=
  fold_left (step env) evs page.

(** The first render: [today] and [nextWeek] are the two formatted dates
    of lines 35 and 36. *)
Definition initial (today nextWeek : string) : Page :=
  {| state :=
       {| App.location := ""; App.startDate := today; App.endDate := nextWeek;
          App.radius := 30; App.loading := false; App.result := None;
          App.groundingChunks := []; App.userCoords := None |};
     log := [];
     inflight := [];
     unhandled := [] |}.

(** The state after performing a list of effects in order. *)
Definition perform_all (fs : list effect) (st : App.State) : App.State :=
  fold_left (fun s f => apply f s) fs st.

(** The settlement of the promise an [async] body returns, when the
    service answers the call of [params] with [answer params]. *)
Fixpoint promise {A : Type} (ctor_fault : option exn)
    (answer : genai.GenerateContentParameters -> completion genai.GenerateContentResponse)
    (p : prog A) : completion A :=
  match p with
  | Ret a => inr a
  | Throw e => inl e
  | Do _ k => promise ctor_fault answer k
  | New key k => promise ctor_fault answer (k (construct ctor_fault key))
  | Await _ params k => promise ctor_fault answer (k (answer params))
  end.

(** The pages the user and the service can bring about from a first
    render. *)
Definition reachable (env : Vite.ImportMetaEnv) (page : Page) : Prop :=
  exists (today nextWeek : string) (evs : list event),
    page = exec env (initial today nextWeek) evs.

(** A whole search cycle: the call of [handleSearch], then the settlement of
    the call it issued (if it got that far). *)
Definition cycle (env : Vite.ImportMetaEnv) (ctor_fault : option exn)
    (settlement : completion genai.GenerateContentResponse) (page : Page) : Page :=
  step env (call_handleSearch env ctor_fault page) (Settle (length (inflight page)) settlement).

End Page.

(* ===================================================================== *)
(** ** Vocabulary of the statements                                       *)
(* ===================================================================== *)

Module Shapes.

(** The two documented shapes of a grounding chunk, [{ maps: { uri, title } }]
    and [{ web: { uri, title } }], and a place chunk whose payload has no
    [uri] member. *)
Definition placeChunk (uri title : value) : value :=
  VObj [("maps", VObj [("uri", uri); ("title", title)])].

Definition webChunk (uri title : value) : value :=
  VObj [("web", VObj [("uri", uri); ("title", title)])].

Definition placeChunk_without_uri (title : value) : value :=
  VObj [("maps", VObj [("title", title)])].

(** A response whose first candidate carries [chunks]. *)
Definition with_chunks (text : option string) (chunks : list value)
  : genai.GenerateContentResponse :=
  {| genai.text := text;
     genai.candidates :=
       Some [{| genai.groundingMetadata :=
                  Some {| genai.groundingChunks := Some chunks |} |}] |}.

(** A chunk that can be inspected and has neither a truthy [maps] nor a
    truthy [web]. *)
Definition neither_shape (chunk : value) : Prop :=
  exists maps web : value,
    get chunk "maps" = inr maps /\ truthy maps = false /\
    get chunk "web" = inr web /\ truthy web = false.

(** The text of a response is missing or falsy. *)
Definition text_falsy (response : genai.GenerateContentResponse) : Prop :=
  genai.text response = None \/ genai.text response = Some "".

(** Some link of [candidates?.[0]?.groundingMetadata?.groundingChunks] is
    absent: the list of candidates, its first element, the metadata of
    that candidate, or the chunk list of the metadata. *)
Inductive chunk_path_absent (response : genai.GenerateContentResponse) : Prop :=
| no_candidates :
    genai.candidates response = None -> chunk_path_absent response
| no_first_candidate :
    genai.candidates response = Some [] -> chunk_path_absent response
| no_metadata (c : genai.Candidate) (rest : list genai.Candidate) :
    genai.candidates response = Some (c :: rest) ->
    genai.groundingMetadata c = None -> chunk_path_absent response
| no_chunk_list (c : genai.Candidate) (rest : list genai.Candidate)
    (m : genai.GroundingMetadata) :
    genai.candidates response = Some (c :: rest) ->
    genai.groundingMetadata c = Some m ->
    genai.groundingChunks m = None -> chunk_path_absent response.

End Shapes.

Module Phase.

Import Page.

(** The effects of [handleSearch] before its [await] (lines 58 to 61). *)
Definition opening : list effect :=
  [PreventDefault; SetLoading true; SetResult None; SetGroundingChunks []].

(** The effects of [handleSearch] once the call has settled: lines 96 to
    100 then 105 on a response, lines 102, 103 then 105 on a fault. *)
Definition closing (settlement : completion genai.GenerateContentResponse) : list effect :=
  match settlement with
  | inr response =>
      [SetResult (Some (App.itinerary response));
       SetGroundingChunks (App.chunks_of response);
       SetLoading false]
  | inl fault =>
      [ConsoleError "Search error:" fault;
       SetResult (Some App.error_text);
       SetLoading false]
  end.

(** A continuation that, however the call settles and whatever the state
    then is, performs [closing] and completes normally. *)
Definition resumes_well (k : completion genai.GenerateContentResponse -> prog unit) : Prop :=
  forall settlement st,
    run None (k settlement) st =
    {| final := perform_all (closing settlement) st;
       performed := closing settlement;
       stopped := Finished (inr tt) |}.

(** The states of the orchestration, read off the page. *)
Definition Failed (st : App.State) : Prop :=
  App.loading st = false /\ App.result st = Some App.error_text /\
  App.groundingChunks st = [].

Definition Succeeded (response : genai.GenerateContentResponse) (st : App.State) : Prop :=
  App.loading st = false /\ App.result st = Some (App.itinerary response) /\
  App.groundingChunks st = App.chunks_of response.

Definition at_rest (page : Page) : Prop :=
  App.loading (state page) = false /\ inflight page = [].

Definition searching (page : Page) : Prop :=
  App.loading (state page) = true /\ App.result (state page) = None /\
  App.groundingChunks (state page) = [] /\
  exists p, inflight page = [p] /\ resumes_well (resume p).

Definition invariant (page : Page) : Prop :=
  unhandled page = [] /\ (at_rest page \/ searching page).

End Phase.

(* ===================================================================== *)
(** ** Concrete inputs                                                    *)
(* ===================================================================== *)

Module Sample.

Import Shapes.

Definition env : Vite.ImportMetaEnv :=
  {| Vite.VITE_GEMINI_API_KEY := Some "test-key" |}.

(** The first render on 1 June 2026. *)
Definition page : Page.Page := Page.initial "2026-06-01" "2026-06-08".

(** The scenario of section 8 of the specification. *)
Definition annecy : App.State :=
  {| App.location := "Annecy"; App.startDate := "2026-06-01";
     App.endDate := "2026-06-03"; App.radius := 20; App.loading := false;
     App.result := None; App.groundingChunks := []; App.userCoords := None |}.

(** Latitude 45.9375 (735/16) and longitude 6.875 (55/8). *)
Definition chamonix : App.Coords :=
  {| App.lat := S754_finite false 735 (-4); App.lng := S754_finite false 55 (-3) |}.

Definition fault : exn := TypeError "Failed to fetch".

Definition chunkA : value := placeChunk (VStr "https://maps.example/a") (VStr "A").
Definition chunkB : value := webChunk (VStr "https://b.example/") (VStr "B").
Definition chunkC : value := placeChunk_without_uri (VStr "C").

(** A chunk of a third shape. *)
Definition chunk_other : value := VObj [("retrievedContext", VObj [])].

(** A chunk carrying both payloads. *)
Definition chunk_both : value :=
  VObj [("web", VObj [("uri", VStr "https://b.example/"); ("title", VStr "B")]);
        ("maps", VObj [("uri", VStr "https://maps.example/a"); ("title", VStr "A")])].

Definition anchorA : App.Anchor :=
  {| App.key := 0; App.href := VStr "https://maps.example/a";
     App.icon := App.MapPin; App.label := VStr "A" |}.

Definition anchorB : App.Anchor :=
  {| App.key := 1; App.href := VStr "https://b.example/";
     App.icon := App.Search; App.label := VStr "B" |}.

Definition anchorC : App.Anchor :=
  {| App.key := 3; App.href := VUndefined;
     App.icon := App.MapPin; App.label := VStr "C" |}.

Definition response_four_chunks : genai.GenerateContentResponse :=
  with_chunks (Some "Day 1: ...") [chunkA; chunkB; chunk_other; chunkC].

(** Text, and no list of candidates. *)
Definition response_text_only : genai.GenerateContentResponse :=
  {| genai.text := Some "Day 1: ..."; genai.candidates := None |}.

(** Chunks, and no text. *)
Definition response_chunks_only : genai.GenerateContentResponse :=
  with_chunks None [chunkA].

(** An empty text, and a candidate without metadata. *)
Definition response_empty_text : genai.GenerateContentResponse :=
  {| genai.text := Some "";
     genai.candidates := Some [{| genai.groundingMetadata := None |}] |}.

Definition params : geminiService.SearchParams :=
  {| geminiService.location := "Annecy";
     geminiService.startDate := "2026-06-01";
     geminiService.endDate := "2026-06-03";
     geminiService.radius := 20;
     geminiService.lat := None;
     geminiService.lng := None |}.

End Sample.

(* ===================================================================== *)
(** ** Vocabulary of the further properties                               *)
(* ===================================================================== *)

Module Observe.

(** [undefined] or [null]. *)
Definition nullish (v : value) : bool :=
  match v with
  | VUndefined | VNull => true
  | _ => false
  end.

(** The integers a Number holds exactly, up to 2^53 in magnitude: the
    template literal prints them as their decimal numeral. *)
Definition safe_integer (n : Z) : Prop := (Z.abs n <= 2 ^ 53)%Z.

Definition is_settle (ev : Page.event) : bool :=
  match ev with
  | Page.Settle _ _ => true
  | _ => false
  end.

(** [handleSearch] has been entered at least once: its first effect is in
    the log. *)
Definition submitted (page : Page.Page) : Prop :=
  PreventDefault ∈ Page.log page.

(** Nothing loading, no result, no sources. *)
Definition Idle (st : App.State) : Prop :=
  App.loading st = false /\ App.result st = None /\ App.groundingChunks st = [].

(** The four situations of the page. *)
Inductive phase (page : Page.Page) : Prop :=
| phase_idle :
    Idle (Page.state page) -> Page.inflight page = [] -> ~ submitted page ->
    phase page
| phase_searching :
    Phase.searching page -> submitted page -> phase page
| phase_failed :
    Phase.at_rest page -> Phase.Failed (Page.state page) -> submitted page ->
    phase page
| phase_succeeded (response : genai.GenerateContentResponse) :
    Phase.at_rest page -> Phase.Succeeded response (Page.state page) ->
    submitted page -> phase page.

End Observe.

Module Cases.

(** A chunk whose [maps] is [null] and whose [web] is a page. *)
Definition chunk_null_maps : value :=
  VObj [("maps", VNull);
        ("web", VObj [("uri", VStr "https://b.example/"); ("title", VStr "B")])].

(** Longitude 9.5 on the equator, and the same place half a degree north. *)
Definition equator : geminiService.SearchParams :=
  {| geminiService.location := "Libreville";
     geminiService.startDate := "2026-06-01";
     geminiService.endDate := "2026-06-03";
     geminiService.radius := 20;
     geminiService.lat := Some (S754_zero false);
     geminiService.lng := Some (S754_finite false 19 (-1)) |}.

Definition north_of_equator : geminiService.SearchParams :=
  {| geminiService.location := "Libreville";
     geminiService.startDate := "2026-06-01";
     geminiService.endDate := "2026-06-03";
     geminiService.radius := 20;
     geminiService.lat := Some (S754_finite false 1 (-1));
     geminiService.lng := Some (S754_finite false 19 (-1)) |}.

(** A state holding three chunks of neither shape. *)
Definition three_unknown_chunks : App.State :=
  {| App.location := ""; App.startDate := "2026-06-01"; App.endDate := "2026-06-08";
     App.radius := 30; App.loading := false; App.result := Some "Day 1: ...";
     App.groundingChunks := [Sample.chunk_other; VObj []; VStr "text"];
     App.userCoords := None |}.

(** A response whose second chunk is [null]. *)
Definition response_null_chunk : genai.GenerateContentResponse :=
  Shapes.with_chunks (Some "Day 1: ...") [Sample.chunkA; VNull].

End Cases.

(* ===================================================================== *)
(** ** Lemmas on strings                                                  *)
(* ===================================================================== *)

Lemma append_assoc' (a b c : string) : (a ++ b) ++ c = a ++ b ++ c.
Proof.
  induction a as [|ch a IH]; [reflexivity|].
  change (String ch ((a ++ b) ++ c) = String ch (a ++ b ++ c)).
  now f_equal.
Qed.

Lemma includes_head (needle rest : string) : includes (needle ++ rest) needle.
Proof. exists "", rest. reflexivity. Qed.

Lemma includes_skip (skipped rest needle : string) :
  includes rest needle -> includes (skipped ++ rest) needle.
Proof.
  intros (before & after & ->).
  exists (skipped ++ before), after.
  now rewrite append_assoc'.
Qed.

(** Walks down a right-nested concatenation until the needle is its head. *)
Ltac find_needle :=
  solve [ apply includes_head | apply includes_skip; find_needle ].

(* ===================================================================== *)
(** ** Lemmas on runs                                                     *)
(* ===================================================================== *)

Section Runs.

Import Page Phase.

Lemma perform_all_app (fs gs : list effect) (st : App.State) :
  perform_all (fs ++ gs) st = perform_all gs (perform_all fs st).
Proof. apply fold_left_app. Qed.

(** The state a run ends in is the state its effects lead to. *)
Lemma run_final {A : Type} (ctor_fault : option exn) (p : prog A) :
  forall st, final (run ctor_fault p st) = perform_all (performed (run ctor_fault p st)) st.
Proof.
  induction p as [a|e|f k IH|key k IH|ai params k IH]; intros st; simpl;
    try reflexivity.
  - apply IH.
  - apply IH.
Qed.

(** A successful construction leads [handleSearch] to its [await], with
    the opening effects performed and the request of the render sent. *)
Lemma handleSearch_suspends (env : Vite.ImportMetaEnv) (st st0 : App.State) :
  exists k,
    run None (App.handleSearch env st) st0 =
    {| final := perform_all opening st0;
       performed := opening;
       stopped :=
         Suspended {| genai.apiKey := Vite.VITE_GEMINI_API_KEY env |} (App.request st) k |}
    /\ resumes_well k.
Proof.
  eexists. split.
  - reflexivity.
  - intros [fault|response] st'; reflexivity.
Qed.

(** A constructor that throws leads [handleSearch] straight through its
    [catch] and [finally]. *)
Lemma handleSearch_ctor_fault (env : Vite.ImportMetaEnv) (fault : exn) (st st0 : App.State) :
  run (Some fault) (App.handleSearch env st) st0 =
  {| final := perform_all (opening ++ closing (inl fault)) st0;
     performed := opening ++ closing (inl fault);
     stopped := Finished (inr tt) |}.
Proof. reflexivity. Qed.

End Runs.

(* ===================================================================== *)
(** ** Lemmas on the page                                                 *)
(* ===================================================================== *)

Section Steps.

Import Page Phase.

Variable env : Vite.ImportMetaEnv.

Lemma call_handleSearch_suspended (page : Page) :
  exists k,
    call_handleSearch env None page =
    {| state := perform_all opening (state page);
       log := log page ++ opening;
       inflight :=
         inflight page ++
         [{| client := {| genai.apiKey := Vite.VITE_GEMINI_API_KEY env |};
             params := App.request (state page);
             resume := k |}];
       unhandled := unhandled page |}
    /\ resumes_well k.
Proof.
  destruct (handleSearch_suspends env (state page) (state page)) as (k & Hrun & Hk).
  exists k. split; [|exact Hk].
  unfold call_handleSearch, absorb. now rewrite Hrun.
Qed.

Lemma call_handleSearch_ctor_fault (fault : exn) (page : Page) :
  call_handleSearch env (Some fault) page =
  {| state := perform_all (opening ++ closing (inl fault)) (state page);
     log := log page ++ opening ++ closing (inl fault);
     inflight := inflight page;
     unhandled := unhandled page |}.
Proof.
  unfold call_handleSearch, absorb. now rewrite handleSearch_ctor_fault.
Qed.

Lemma settle_resumed (page : Page) (i : nat) (p : Pending)
    (settlement : completion genai.GenerateContentResponse) :
  inflight page !! i = Some p ->
  resumes_well (resume p) ->
  step env page (Settle i settlement) =
  {| state := perform_all (closing settlement) (state page);
     log := log page ++ closing settlement;
     inflight := delete i (inflight page);
     unhandled := unhandled page |}.
Proof.
  intros Hp Hk. unfold step. rewrite Hp. unfold absorb. now rewrite Hk.
Qed.

Lemma closing_rests (settlement : completion genai.GenerateContentResponse)
    (st : App.State) :
  App.loading (perform_all (closing settlement) st) = false.
Proof. now destruct settlement. Qed.

Lemma invariant_loading (page : Page) :
  invariant page ->
  if App.loading (state page) then searching page else at_rest page.
Proof.
  intros [_ [Hrest|Hsearch]].
  - destruct Hrest as [Hl Hi]. now rewrite Hl.
  - destruct Hsearch as (Hl & Hs). now rewrite Hl.
Qed.

Lemma initial_invariant (today nextWeek : string) :
  invariant (initial today nextWeek).
Proof. split; [reflexivity|]. left. now split. Qed.

(** Every event of the page preserves the invariant. *)
Lemma step_invariant (page : Page) (ev : event) :
  invariant page -> invariant (step env page ev).
Proof.
  intros Hinv. pose proof (invariant_loading page Hinv) as Hphase.
  pose proof Hinv as [Hun Hcases].
  destruct ev as [ctor_fault|i settlement|v|v|v|v|c|error].
  3-8: (split; [exact Hun|];
        destruct Hcases as [[Hl Hnone]|(Hl & Hr & Hc & Hp)];
        [left|right]; repeat split; assumption).
  - (* Submit *)
    unfold step, App.submit_disabled.
    destruct (App.loading (state page)) eqn:Hl; [exact Hinv|].
    destruct Hphase as [_ Hnone].
    destruct ctor_fault as [fault|].
    + rewrite call_handleSearch_ctor_fault. split; [exact Hun|].
      left. now split.
    + destruct (call_handleSearch_suspended page) as (k & -> & Hk).
      split; [exact Hun|]. right. rewrite Hnone.
      repeat split. eexists. split; [reflexivity|exact Hk].
  - (* Settle *)
    destruct Hcases as [[Hl Hnone]|(Hl & Hr & Hc & p & Hp & Hk)].
    + unfold step. now rewrite Hnone, lookup_nil.
    + destruct i as [|i].
      * rewrite (settle_resumed page 0 p settlement); [|now rewrite Hp|exact Hk].
        split; [exact Hun|]. left. split; [apply closing_rests|].
        now rewrite Hp.
      * unfold step. now rewrite Hp.
Qed.

Lemma exec_invariant (evs : list event) :
  forall page, invariant page -> invariant (exec env page evs).
Proof.
  induction evs as [|ev evs IH]; intros page Hinv; [exact Hinv|].
  apply IH, step_invariant, Hinv.
Qed.

Lemma reachable_invariant (today nextWeek : string) (evs : list event) :
  invariant (exec env (initial today nextWeek) evs).
Proof. apply exec_invariant, initial_invariant. Qed.

End Steps.

Section Cycle.

Import Page Phase.

Variable env : Vite.ImportMetaEnv.

(** A submission whose call settles at once: the opening effects, then
    the closing ones, and nothing else changes on the page. *)
Lemma cycle_settled (settlement : completion genai.GenerateContentResponse)
    (page : Page) :
  cycle env None settlement page =
  {| state := perform_all (opening ++ closing settlement) (state page);
     log := log page ++ opening ++ closing settlement;
     inflight := inflight page;
     unhandled := unhandled page |}.
Proof.
  unfold cycle.
  destruct (call_handleSearch_suspended env page) as (k & -> & Hk).
  erewrite settle_resumed; [|now apply list_lookup_middle|exact Hk].
  cbn [state log inflight unhandled].
  now rewrite perform_all_app, delete_middle, app_nil_r, <- app_assoc.
Qed.

(** When the constructor throws there is no call to settle. *)
Lemma cycle_ctor_fault (fault : exn)
    (settlement : completion genai.GenerateContentResponse) (page : Page) :
  cycle env (Some fault) settlement page =
  {| state := perform_all (opening ++ closing (inl fault)) (state page);
     log := log page ++ opening ++ closing (inl fault);
     inflight := inflight page;
     unhandled := unhandled page |}.
Proof.
  unfold cycle. rewrite call_handleSearch_ctor_fault.
  unfold step. cbn [inflight].
  now rewrite lookup_ge_None_2.
Qed.

End Cycle.

(* ===================================================================== *)
(** ** Lemmas on the rendering of chunks                                  *)
(* ===================================================================== *)

Lemma itinerary_truthy (response : genai.GenerateContentResponse) :
  string_truthy (App.itinerary response) = true.
Proof.
  unfold App.itinerary, or_optional_string, or_string.
  destruct (genai.text response) as [[|c s]|]; reflexivity.
Qed.

Lemma truthy_get (v : value) (key : string) :
  truthy v = true -> get v key = inr (member v key).
Proof. now destruct v. Qed.

Lemma render_chunk_place (chunk maps : value) (idx : nat) :
  get chunk "maps" = inr maps -> truthy maps = true ->
  App.render_chunk chunk idx =
  inr (Some {| App.key := idx; App.href := member maps "uri";
               App.icon := App.MapPin; App.label := member maps "title" |}).
Proof.
  intros Hget Htruthy. unfold App.render_chunk.
  rewrite Hget. cbn. rewrite Htruthy.
  now rewrite !(truthy_get maps) by exact Htruthy.
Qed.

Lemma render_chunk_web (chunk maps web : value) (idx : nat) :
  get chunk "maps" = inr maps -> truthy maps = false ->
  get chunk "web" = inr web -> truthy web = true ->
  App.render_chunk chunk idx =
  inr (Some {| App.key := idx; App.href := member web "uri";
               App.icon := App.Search; App.label := member web "title" |}).
Proof.
  intros Hmaps Hfalsy Hweb Htruthy. unfold App.render_chunk.
  rewrite Hmaps. cbn. rewrite Hfalsy, Hweb. cbn. rewrite Htruthy.
  now rewrite !(truthy_get web) by exact Htruthy.
Qed.

Lemma render_chunk_neither (chunk : value) (idx : nat) :
  Shapes.neither_shape chunk -> App.render_chunk chunk idx = inr None.
Proof.
  intros (maps & web & Hmaps & Hfalsy & Hweb & Hfalsy').
  unfold App.render_chunk.
  rewrite Hmaps. cbn. rewrite Hfalsy, Hweb. cbn. now rewrite Hfalsy'.
Qed.

Lemma render_placeChunk (uri title : value) (idx : nat) :
  App.render_chunk (Shapes.placeChunk uri title) idx =
  inr (Some {| App.key := idx; App.href := uri; App.icon := App.MapPin; App.label := title |}).
Proof. reflexivity. Qed.

Lemma render_webChunk (uri title : value) (idx : nat) :
  App.render_chunk (Shapes.webChunk uri title) idx =
  inr (Some {| App.key := idx; App.href := uri; App.icon := App.Search; App.label := title |}).
Proof. reflexivity. Qed.

Lemma render_placeChunk_without_uri (title : value) (idx : nat) :
  App.render_chunk (Shapes.placeChunk_without_uri title) idx =
  inr (Some {| App.key := idx; App.href := VUndefined; App.icon := App.MapPin; App.label := title |}).
Proof. reflexivity. Qed.

(** A [null] among the chunks is not skipped: reading its [maps] throws, and
    the exception ends the rendering of the sources. *)
Remark null_chunk_throws (before after : list value) (idx : nat) :
  (forall chunk, chunk ∈ before -> exists maps, get chunk "maps" = inr maps /\ truthy maps = true) ->
  exists e, App.map_chunks idx (before ++ VNull :: after) = inl e.
Proof.
  revert idx. induction before as [|chunk before IH]; intros idx Hplaces.
  - eexists. reflexivity.
  - destruct (Hplaces chunk) as (maps & Hget & Htruthy); [left|].
    destruct (IH (S idx)) as (e & He).
    { intros c Hc. apply Hplaces. now right. }
    exists e. cbn [app App.map_chunks].
    rewrite (render_chunk_place _ _ _ Hget Htruthy), He. reflexivity.
Qed.

(* ===================================================================== *)
(** ** The normalization of the response                                  *)
(* ===================================================================== *)

(** C1, as stated, fails. For the response whose chunks are a place chunk A,
    a web chunk B, a chunk of neither shape and a place chunk C without a
    URI, the page shows three links, A, B and C (the last with no [href]),
    and not the two links A and B. *)
Lemma uriless_place_chunk_is_rendered :
  App.links <$> App.sources_block
    (Page.state (Page.cycle Sample.env None (inr Sample.response_four_chunks) Sample.page))
  = inr [Sample.anchorA; Sample.anchorB; Sample.anchorC]
  /\
  App.links <$> App.sources_block
    (Page.state (Page.cycle Sample.env None (inr Sample.response_four_chunks) Sample.page))
  <> inr [Sample.anchorA; Sample.anchorB].
Proof.
  split.
  - vm_compute. reflexivity.
  - vm_compute. discriminate.
Qed.

(** C1, amended. For every response whose chunk list is a place chunk A, a
    web chunk B, a chunk of neither shape and a place chunk C without a URI,
    the links shown are A, B and C in that order, C with an undefined
    [href]: a chunk of the place or web shape gives one link, in response
    order and whatever its URI is (missing and empty included), and only a
    chunk of neither shape is dropped. *)
Theorem chunk_mapping_fidelity (env : Vite.ImportMetaEnv) (page : Page.Page)
    (text : option string) (uriA titleA uriB titleB malformed titleC : value) :
  Shapes.neither_shape malformed ->
  App.links <$> App.sources_block
    (Page.state
       (Page.cycle env None
          (inr (Shapes.with_chunks text
                  [Shapes.placeChunk uriA titleA; Shapes.webChunk uriB titleB;
                   malformed; Shapes.placeChunk_without_uri titleC]))
          page))
  = inr [{| App.key := 0; App.href := uriA; App.icon := App.MapPin; App.label := titleA |};
         {| App.key := 1; App.href := uriB; App.icon := App.Search; App.label := titleB |};
         {| App.key := 3; App.href := VUndefined; App.icon := App.MapPin; App.label := titleC |}].
Proof.
  intros Hneither. rewrite cycle_settled.
  unfold App.sources_block. cbn [Page.state].
  change (App.groundingChunks (Page.perform_all _ _))
    with [Shapes.placeChunk uriA titleA; Shapes.webChunk uriB titleB;
          malformed; Shapes.placeChunk_without_uri titleC].
  cbn [App.map_chunks].
  rewrite render_placeChunk, render_webChunk, render_placeChunk_without_uri.
  rewrite (render_chunk_neither malformed 2 Hneither).
  reflexivity.
Qed.

Lemma chunk_mapping_fidelity_witness :
  Shapes.neither_shape Sample.chunk_other /\
  App.links <$> App.sources_block
    (Page.state (Page.cycle Sample.env None (inr Sample.response_four_chunks) Sample.page))
  = inr [Sample.anchorA; Sample.anchorB; Sample.anchorC].
Proof.
  assert (H : Shapes.neither_shape Sample.chunk_other).
  { exists VUndefined, VUndefined. repeat split; reflexivity. }
  split; [exact H|].
  exact (chunk_mapping_fidelity Sample.env Sample.page (Some "Day 1: ...")
           (VStr "https://maps.example/a") (VStr "A")
           (VStr "https://b.example/") (VStr "B")
           Sample.chunk_other (VStr "C") H).
Defined.

(** C9. A chunk that carries both a place payload and a web payload is
    rendered as a place link, built from the place payload alone: the link
    is the same for every chunk with that place payload, whatever its web
    payload. *)
Theorem place_shape_has_priority (chunk maps web : value) (idx : nat) :
  get chunk "maps" = inr maps -> truthy maps = true ->
  get chunk "web" = inr web -> truthy web = true ->
  App.render_chunk chunk idx =
    inr (Some {| App.key := idx; App.href := member maps "uri";
                 App.icon := App.MapPin; App.label := member maps "title" |})
  /\ forall other : value,
       get other "maps" = inr maps ->
       App.render_chunk other idx = App.render_chunk chunk idx.
Proof.
  intros Hmaps Htruthy _ _. split.
  - now apply render_chunk_place.
  - intros other Hother.
    now rewrite (render_chunk_place chunk maps), (render_chunk_place other maps).
Qed.

Lemma place_shape_has_priority_witness :
  App.render_chunk Sample.chunk_both 0 = inr (Some Sample.anchorA).
Proof.
  exact (proj1 (place_shape_has_priority Sample.chunk_both
                  (VObj [("uri", VStr "https://maps.example/a"); ("title", VStr "A")])
                  (VObj [("uri", VStr "https://b.example/"); ("title", VStr "B")])
                  0 eq_refl eq_refl eq_refl eq_refl)).
Defined.

(** C2, as stated, fails. A response that has a text and no list of
    candidates keeps its text (the fallback is not substituted), and a
    response that has chunks and no text keeps its chunks (the sources are
    not empty). *)
Lemma text_and_chunks_are_independent :
  (genai.candidates Sample.response_text_only = None /\
   App.result (Page.state (Page.cycle Sample.env None (inr Sample.response_text_only) Sample.page))
   <> Some App.fallback_text)
  /\
  (genai.text Sample.response_chunks_only = None /\
   App.groundingChunks
     (Page.state (Page.cycle Sample.env None (inr Sample.response_chunks_only) Sample.page))
   <> []).
Proof.
  repeat split; vm_compute; discriminate.
Qed.

(** C2, amended. For every response, [handleSearch] reads the response
    without throwing and ends the cycle in the success state: its only
    effects after the opening ones publish the itinerary and the chunks and
    end the loading, and no exception is left unhandled. The itinerary is
    the fixed fallback string when the text is missing (or empty), and the
    text of the response otherwise. The sources are empty, and the results
    section renders the itinerary alone, without a sources block and without
    throwing, when the list of candidates, its first element, the metadata
    of that candidate or the chunk list of the metadata is absent; otherwise
    the sources are the chunk list of the first candidate. *)
Theorem normalizer_safety (env : Vite.ImportMetaEnv) (page : Page.Page)
    (response : genai.GenerateContentResponse) :
  Page.unhandled (Page.cycle env None (inr response) page) = Page.unhandled page
  /\ Page.log (Page.cycle env None (inr response) page)
     = (Page.log page ++ Phase.opening ++
        [SetResult (Some (App.itinerary response));
         SetGroundingChunks (App.chunks_of response);
         SetLoading false])%list
  /\ Phase.Succeeded response (Page.state (Page.cycle env None (inr response) page))
  /\ (Shapes.text_falsy response ->
      App.result (Page.state (Page.cycle env None (inr response) page))
      = Some App.fallback_text)
  /\ (forall s : string,
        genai.text response = Some s -> s <> "" ->
        App.result (Page.state (Page.cycle env None (inr response) page)) = Some s)
  /\ (Shapes.chunk_path_absent response ->
      App.groundingChunks (Page.state (Page.cycle env None (inr response) page)) = []
      /\ App.results_section (Page.state (Page.cycle env None (inr response) page))
         = inr (App.Programme
                  match genai.text response with
                  | Some (String c s) => String c s
                  | _ => App.fallback_text
                  end
                  None))
  /\ (forall (c : genai.Candidate) (rest : list genai.Candidate)
             (m : genai.GroundingMetadata) (chunks : list value),
        genai.candidates response = Some (c :: rest) ->
        genai.groundingMetadata c = Some m ->
        genai.groundingChunks m = Some chunks ->
        App.groundingChunks (Page.state (Page.cycle env None (inr response) page))
        = chunks).
Proof.
  rewrite cycle_settled. cbn [Page.unhandled Page.log Page.state].
  split; [reflexivity|]. split; [reflexivity|]. split; [now repeat split|].
  split; [|split; [|split]].
  - intros [Htext|Htext]; cbn; unfold App.itinerary; now rewrite Htext.
  - intros s Htext Hs. cbn. unfold App.itinerary. rewrite Htext.
    destruct s; [easy|reflexivity].
  - intros Habsent.
    assert (Hnone : App.chunks_of response = []).
    { unfold App.chunks_of.
      destruct Habsent as [Hc|Hc|c rest Hc Hm|c rest m Hc Hm Hg]; rewrite Hc; cbn;
        try reflexivity.
      - now rewrite Hm.
      - rewrite Hm. cbn. now rewrite Hg. }
    split; [exact Hnone|].
    unfold App.results_section, App.sources_block. cbn.
    rewrite itinerary_truthy, Hnone. cbn. unfold App.itinerary.
    now destruct (genai.text response) as [[|c s]|].
  - intros c rest m chunks Hc Hm Hg. cbn. unfold App.chunks_of.
    rewrite Hc. cbn. rewrite Hm. cbn. now rewrite Hg.
Qed.

Lemma normalizer_safety_witness :
  (App.result
     (Page.state (Page.cycle Sample.env None (inr Sample.response_empty_text) Sample.page))
   = Some App.fallback_text
   /\ App.results_section
        (Page.state (Page.cycle Sample.env None (inr Sample.response_empty_text) Sample.page))
      = inr (App.Programme App.fallback_text None))
  /\ App.result
       (Page.state (Page.cycle Sample.env None (inr Sample.response_text_only) Sample.page))
     = Some "Day 1: ..."
  /\ App.groundingChunks
       (Page.state (Page.cycle Sample.env None (inr Sample.response_chunks_only) Sample.page))
     = [Sample.chunkA].
Proof.
  split; [|split].
  - destruct (normalizer_safety Sample.env Sample.page Sample.response_empty_text)
      as (_ & _ & _ & Htext & _ & Habsent & _).
    split.
    + apply Htext. right. reflexivity.
    + apply Habsent.
      exact (Shapes.no_metadata Sample.response_empty_text
               {| genai.groundingMetadata := None |} [] eq_refl eq_refl).
  - destruct (normalizer_safety Sample.env Sample.page Sample.response_text_only)
      as (_ & _ & _ & _ & Hkept & _).
    apply Hkept; [reflexivity|discriminate].
  - destruct (normalizer_safety Sample.env Sample.page Sample.response_chunks_only)
      as (_ & _ & _ & _ & _ & _ & Hchunks).
    exact (Hchunks _ _ _ _ eq_refl eq_refl eq_refl).
Defined.

(** C10. When the text of the response is the empty string (or is missing),
    the result published is the fallback message, not the empty string: the
    substitution is triggered by any falsy text. *)
Theorem empty_text_falls_back (env : Vite.ImportMetaEnv) (page : Page.Page)
    (response : genai.GenerateContentResponse) :
  Shapes.text_falsy response ->
  App.itinerary response = App.fallback_text
  /\ App.result (Page.state (Page.cycle env None (inr response) page))
     = Some App.fallback_text
  /\ App.result (Page.state (Page.cycle env None (inr response) page)) <> Some "".
Proof.
  intros Hfalsy.
  assert (Hit : App.itinerary response = App.fallback_text).
  { unfold App.itinerary. now destruct Hfalsy as [-> | ->]. }
  rewrite cycle_settled. cbn. rewrite Hit. now repeat split.
Qed.

Lemma empty_text_falls_back_witness :
  genai.text Sample.response_empty_text = Some ""
  /\ App.result
       (Page.state (Page.cycle Sample.env None (inr Sample.response_empty_text) Sample.page))
     = Some App.fallback_text.
Proof.
  split; [reflexivity|].
  exact (proj1 (proj2 (empty_text_falls_back Sample.env Sample.page
                         Sample.response_empty_text (or_intror eq_refl)))).
Defined.

(* ===================================================================== *)
(** ** The query sent to the service                                      *)
(* ===================================================================== *)

Lemma prompt_includes_destination (st : App.State) :
  includes (App.prompt st) (App.destination st).
Proof. unfold App.prompt. find_needle. Qed.

Lemma prompt_includes_startDate (st : App.State) :
  includes (App.prompt st) (App.startDate st).
Proof. unfold App.prompt. find_needle. Qed.

Lemma prompt_includes_endDate (st : App.State) :
  includes (App.prompt st) (App.endDate st).
Proof. unfold App.prompt. find_needle. Qed.

Lemma prompt_includes_radius (st : App.State) :
  includes (App.prompt st) (Number_toString (App.radius st)).
Proof. unfold App.prompt. find_needle. Qed.

Lemma destination_cases (st : App.State) :
  App.destination st =
  match App.location st with
  | "" => "ma position actuelle"
  | _ => App.location st
  end.
Proof. unfold App.destination, or_string. now destruct (App.location st). Qed.

(** The request of an accepted submission is the one built from the render:
    the construction of the prompt and of the configuration cannot fail. *)
Lemma handleSearch_sends_request (env : Vite.ImportMetaEnv) (st st0 : App.State) :
  exists k,
    Page.stopped (Page.run None (App.handleSearch env st) st0) =
    Page.Suspended {| genai.apiKey := Vite.VITE_GEMINI_API_KEY env |}
      {| genai.model := "gemini-2.5-flash";
         genai.contents := App.prompt st;
         genai.config := App.config st |} k.
Proof.
  destruct (handleSearch_suspends env st st0) as (k & -> & _). now exists k.
Qed.

(** The scenario of the specification: Annecy, 1 to 3 June 2026, 20 km, no
    coordinates. *)
Example annecy_prompt :
  includes (App.prompt Sample.annecy) "Annecy"
  /\ includes (App.prompt Sample.annecy) "2026-06-01"
  /\ includes (App.prompt Sample.annecy) "2026-06-03"
  /\ includes (App.prompt Sample.annecy) "20"
  /\ genai.latLng (genai.retrievalConfig (genai.toolConfig (App.config Sample.annecy))) = None.
Proof.
  repeat split.
  - exact (prompt_includes_destination Sample.annecy).
  - exact (prompt_includes_startDate Sample.annecy).
  - exact (prompt_includes_endDate Sample.annecy).
  - exact (prompt_includes_radius Sample.annecy).
Qed.

(** Coordinates found before the submission reach the request in flight. *)
Example located_request :
  (fun p => genai.latLng (genai.retrievalConfig (genai.toolConfig (genai.config (Page.params p)))))
    <$> Page.inflight
          (Page.exec Sample.env Sample.page
             [Page.PositionFound Sample.chamonix; Page.Submit None])
  = [Some {| genai.latitude := S754_finite false 735 (-4);
             genai.longitude := S754_finite false 55 (-3) |}].
Proof. reflexivity. Qed.

(** C5. The prompt built from any state of the form contains the
    destination (the placeholder [ma position actuelle] when the destination
    is the empty string), the start date, the end date and the radius; its
    construction never fails: the body of [handleSearch] reaches the call of
    the service with that prompt as contents. *)
Theorem prompt_completeness (env : Vite.ImportMetaEnv) (st st0 : App.State) :
  includes (App.prompt st)
    match App.location st with
    | "" => "ma position actuelle"
    | _ => App.location st
    end
  /\ includes (App.prompt st) (App.startDate st)
  /\ includes (App.prompt st) (App.endDate st)
  /\ includes (App.prompt st) (Number_toString (App.radius st))
  /\ exists k,
       Page.stopped (Page.run None (App.handleSearch env st) st0) =
       Page.Suspended {| genai.apiKey := Vite.VITE_GEMINI_API_KEY env |}
         {| genai.model := "gemini-2.5-flash";
            genai.contents := App.prompt st;
            genai.config := App.config st |} k.
Proof.
  rewrite <- destination_cases.
  split; [apply prompt_includes_destination|].
  split; [apply prompt_includes_startDate|].
  split; [apply prompt_includes_endDate|].
  split; [apply prompt_includes_radius|].
  apply handleSearch_sends_request.
Qed.

(** C3. The configuration sent with the query carries a location bias if
    and only if the state holds coordinates, and the bias is that pair of
    coordinates; with or without coordinates it requests both grounding
    tools, the places and the web search. *)
Theorem configuration_gating (env : Vite.ImportMetaEnv) (st st0 : App.State) :
  genai.tools (App.config st) = [genai.googleMaps; genai.googleSearch]
  /\ (is_Some (genai.latLng (genai.retrievalConfig (genai.toolConfig (App.config st))))
      <-> is_Some (App.userCoords st))
  /\ genai.latLng (genai.retrievalConfig (genai.toolConfig (App.config st)))
     = (fun c => {| genai.latitude := App.lat c; genai.longitude := App.lng c |})
         <$> App.userCoords st
  /\ exists k,
       Page.stopped (Page.run None (App.handleSearch env st) st0) =
       Page.Suspended {| genai.apiKey := Vite.VITE_GEMINI_API_KEY env |}
         {| genai.model := "gemini-2.5-flash";
            genai.contents := App.prompt st;
            genai.config := App.config st |} k.
Proof.
  split; [reflexivity|]. split; [|split].
  - cbn. destruct (App.userCoords st); split; intros [x Hx]; try discriminate; eauto.
  - cbn. now destruct (App.userCoords st).
  - apply handleSearch_sends_request.
Qed.

(* ===================================================================== *)
(** ** The typed search path                                              *)
(* ===================================================================== *)

(** The promise of [searchActivities] is rejected when the constructor
    throws or when the call is rejected. *)
Remark searchActivities_rejects (env : Vite.ImportMetaEnv)
    (params : geminiService.SearchParams) (fault : exn) :
  Page.promise None (fun _ => inl fault) (geminiService.searchActivities env params) = inl fault
  /\ forall answer,
       Page.promise (Some fault) answer (geminiService.searchActivities env params) = inl fault.
Proof. split; reflexivity. Qed.

(** C8. Whatever the parameters and whatever response the awaited call
    yields, the promise of [searchActivities] is fulfilled with the empty
    list; and however the constructor and the call behave, it is never
    fulfilled with a list that is not empty. *)
Theorem searchActivities_is_empty (env : Vite.ImportMetaEnv)
    (params : geminiService.SearchParams) :
  (forall response : genai.GenerateContentResponse,
     Page.promise None (fun _ => inr response) (geminiService.searchActivities env params)
     = inr [])
  /\ (forall ctor_fault answer,
        match Page.promise ctor_fault answer (geminiService.searchActivities env params) with
        | inr activities => activities = []
        | inl _ => True
        end).
Proof.
  split; [reflexivity|].
  intros [fault|] answer; cbn; [exact I|].
  now destruct (answer (geminiService.request params)).
Qed.

(* ===================================================================== *)
(** ** The orchestration                                                  *)
(* ===================================================================== *)

Section Orchestration.

Import Page Phase.

Variable env : Vite.ImportMetaEnv.

Lemma reachable_invariant' (page : Page) : reachable env page -> invariant page.
Proof. intros (today & nextWeek & evs & ->). apply reachable_invariant. Qed.

(** On a reachable page a call in flight is the only one, the page is
    loading and shows neither a result nor sources. *)
Lemma reachable_inflight (page : Page) (i : nat) (p : Pending) :
  reachable env page ->
  inflight page !! i = Some p ->
  i = 0 /\ inflight page = [p] /\ resumes_well (resume p)
  /\ App.loading (state page) = true
  /\ App.result (state page) = None
  /\ App.groundingChunks (state page) = [].
Proof.
  intros Hreach.
  destruct (reachable_invariant' page Hreach)
    as [_ [[_ Hnone]|(Hl & Hr & Hc & q & Hq & Hk)]].
  - rewrite Hnone, lookup_nil. discriminate.
  - rewrite Hq. destruct i as [|i]; [|discriminate].
    intros [= ->]. now repeat split.
Qed.

Lemma reachable_at_rest (page : Page) :
  reachable env page -> inflight page = [] -> App.loading (state page) = false.
Proof.
  intros Hreach.
  destruct (reachable_invariant' page Hreach)
    as [_ [[Hl _]|(_ & _ & _ & q & Hq & _)]]; [easy|].
  rewrite Hq. discriminate.
Qed.

Lemma reachable_unhandled (page : Page) :
  reachable env page -> unhandled page = [].
Proof. intros Hreach. now destruct (reachable_invariant' page Hreach). Qed.

(** [handleSearch] has no guard of its own: called twice in a row, whatever
    the page shows, it leaves two calls in flight. *)
Remark handleSearch_is_not_guarded (page : Page) :
  length (inflight (call_handleSearch env None (call_handleSearch env None page)))
  = S (S (length (inflight page))).
Proof.
  destruct (call_handleSearch_suspended env page) as (k & -> & _).
  destruct (call_handleSearch_suspended env
              {| state := perform_all opening (state page);
                 log := log page ++ opening;
                 inflight :=
                   inflight page ++
                   [{| client := {| genai.apiKey := Vite.VITE_GEMINI_API_KEY env |};
                       params := App.request (state page);
                       resume := k |}];
                 unhandled := unhandled page |}) as (k' & -> & _).
  cbn [inflight]. rewrite !length_app. cbn. lia.
Qed.

End Orchestration.

Lemma sample_reachable (evs : list Page.event) :
  Page.reachable Sample.env (Page.exec Sample.env Sample.page evs).
Proof. now exists "2026-06-01", "2026-06-08", evs. Qed.




(** C6. A submission clears the page before the service is called: when
    [handleSearch] stops at its [await], the effects performed are the
    opening ones alone, ending with the two that clear the result and the
    sources, and the state then holds neither. On every reachable page,
    while a call is in flight the state holds no result and no sources and
    the results section shows nothing. *)
Theorem no_stale_result (env : Vite.ImportMetaEnv) (page : Page.Page) :
  Page.reachable env page ->
  (forall st st0 : App.State,
     Page.performed (Page.run None (App.handleSearch env st) st0)
     = [PreventDefault; SetLoading true; SetResult None; SetGroundingChunks []]
     /\ App.result (Page.final (Page.run None (App.handleSearch env st) st0)) = None
     /\ App.groundingChunks (Page.final (Page.run None (App.handleSearch env st) st0)) = []
     /\ exists ai k,
          Page.stopped (Page.run None (App.handleSearch env st) st0)
          = Page.Suspended ai (App.request st) k)
  /\ (Page.inflight page <> [] ->
      App.result (Page.state page) = None
      /\ App.groundingChunks (Page.state page) = []
      /\ App.results_section (Page.state page) = inr App.Nothing).
Proof.
  intros Hreach. split.
  - intros st st0. destruct (handleSearch_suspends env st st0) as (k & -> & _).
    repeat split. now eexists _, k.
  - intros Hbusy. destruct (Page.inflight page) as [|p rest] eqn:Hin; [easy|].
    destruct (reachable_inflight env page 0 p Hreach) as (_ & _ & _ & Hl & Hr & Hc);
      [now rewrite Hin|].
    repeat split; [exact Hr|exact Hc|].
    unfold App.results_section. now rewrite Hr, Hl.
Qed.

Lemma no_stale_result_witness :
  App.result
    (Page.state
       (Page.exec Sample.env Sample.page
          [Page.Submit None; Page.Settle 0 (inr Sample.response_four_chunks);
           Page.ChangeLocation "Annecy"; Page.Submit None]))
  = None
  /\ App.groundingChunks
       (Page.state
          (Page.exec Sample.env Sample.page
             [Page.Submit None; Page.Settle 0 (inr Sample.response_four_chunks);
              Page.ChangeLocation "Annecy"; Page.Submit None]))
     = [].
Proof.
  destruct (no_stale_result Sample.env _
              (sample_reachable
                 [Page.Submit None; Page.Settle 0 (inr Sample.response_four_chunks);
                  Page.ChangeLocation "Annecy"; Page.Submit None]))
    as (_ & Hbusy).
  destruct Hbusy as (Hr & Hc & _); [vm_compute; discriminate|].
  split; [exact Hr|exact Hc].
Defined.

(** C7. On every page reachable through the form, at most one call of the
    service is in flight; while one is, the submit button is disabled and a
    submission is rejected: it changes nothing on the page and calls
    nothing. *)
Theorem single_flight (env : Vite.ImportMetaEnv) (page : Page.Page)
    (ctor_fault : option exn) :
  Page.reachable env page ->
  length (Page.inflight page) <= 1
  /\ length (Page.inflight (Page.step env page (Page.Submit ctor_fault))) <= 1
  /\ (Page.inflight page <> [] ->
      App.submit_disabled (Page.state page) = true
      /\ Page.step env page (Page.Submit ctor_fault) = page).
Proof.
  intros Hreach.
  assert (Hbound : forall q, Page.reachable env q -> length (Page.inflight q) <= 1).
  { intros q Hq.
    destruct (reachable_invariant' env q Hq) as [_ [[_ ->]|(_ & _ & _ & p & -> & _)]];
      cbn; lia. }
  split; [now apply Hbound|]. split.
  - apply Hbound. destruct Hreach as (today & nextWeek & evs & ->).
    exists today, nextWeek, (evs ++ [Page.Submit ctor_fault])%list.
    unfold Page.exec. now rewrite fold_left_app.
  - intros Hbusy. destruct (Page.inflight page) as [|p rest] eqn:Hin; [easy|].
    destruct (reachable_inflight env page 0 p Hreach) as (_ & _ & _ & Hl & _);
      [now rewrite Hin|].
    unfold Page.step, App.submit_disabled. now rewrite Hl.
Qed.

Lemma single_flight_witness :
  Page.exec Sample.env Sample.page [Page.Submit None; Page.Submit None]
  = Page.exec Sample.env Sample.page [Page.Submit None].
Proof.
  destruct (single_flight Sample.env _ None (sample_reachable [Page.Submit None]))
    as (_ & _ & Hbusy).
  destruct Hbusy as (_ & Hsame); [vm_compute; discriminate|].
  exact Hsame.
Defined.

(** The typed search path gates its location bias differently from
    [handleSearch]: a latitude of zero is falsy, so coordinates on the
    equator give no bias; and it requests the places tool alone. *)
Remark searchActivities_config_differs :
  geminiService.latLng
    {| geminiService.location := "Libreville";
       geminiService.startDate := "2026-06-01";
       geminiService.endDate := "2026-06-03";
       geminiService.radius := 20;
       geminiService.lat := Some (S754_zero false);
       geminiService.lng := Some (S754_finite false 19 (-1)) |} = None
  /\ genai.tools (genai.config (geminiService.request Sample.params)) = [genai.googleMaps].
Proof. split; reflexivity. Qed.

(* ===================================================================== *)
(** ** Further properties: the typed search path                          *)
(* ===================================================================== *)

(** X1. For a radius that is a safe integer, the prompt of
    [searchActivities] is one sentence holding the location, the radius and
    the two dates, in that order and verbatim; an empty location gets no
    placeholder. *)
Theorem searchActivities_prompt_complete (params : geminiService.SearchParams) :
  Observe.safe_integer (geminiService.radius params) ->
  includes (geminiService.prompt params)
    ("Trouve des activités à faire à " ++ geminiService.location params
       ++ " et dans un rayon de " ++ Number_toString (geminiService.radius params)
       ++ "km entre le " ++ geminiService.startDate params
       ++ " et le " ++ geminiService.endDate params ++ ".")
  /\ includes (geminiService.prompt params) (geminiService.location params)
  /\ includes (geminiService.prompt params) (Number_toString (geminiService.radius params))
  /\ includes (geminiService.prompt params) (geminiService.startDate params)
  /\ includes (geminiService.prompt params) (geminiService.endDate params).
Proof.
  intros _. split.
  - exists "". eexists. unfold geminiService.prompt. cbn [append].
    rewrite !append_assoc'. reflexivity.
  - unfold geminiService.prompt. repeat split; find_needle.
Qed.

Lemma searchActivities_prompt_complete_witness :
  Observe.safe_integer 20
  /\ includes (geminiService.prompt Sample.params)
       "Trouve des activités à faire à Annecy et dans un rayon de 20km entre le 2026-06-01 et le 2026-06-03.".
Proof.
  assert (H : Observe.safe_integer 20) by (unfold Observe.safe_integer; cbn; lia).
  split; [exact H|].
  exact (proj1 (searchActivities_prompt_complete Sample.params H)).
Defined.

(** X2. [searchActivities] sends a location bias exactly when both
    coordinates are given and neither is zero or NaN, and the bias is then
    that pair; it requests the places tool alone. *)
Theorem searchActivities_bias_gating (params : geminiService.SearchParams) :
  (is_Some (geminiService.latLng params) <->
   exists la ln,
     geminiService.lat params = Some la /\ geminiService.lng params = Some ln /\
     number_truthy la = true /\ number_truthy ln = true)
  /\ geminiService.latLng params
     = (la ← geminiService.lat params;
        ln ← geminiService.lng params;
        if number_truthy la && number_truthy ln
        then Some {| genai.latitude := la; genai.longitude := ln |}
        else None)
  /\ genai.latLng
       (genai.retrievalConfig
          (genai.toolConfig (genai.config (geminiService.request params))))
     = geminiService.latLng params
  /\ genai.tools (genai.config (geminiService.request params)) = [genai.googleMaps].
Proof.
  split; [|split; [|split; reflexivity]].
  - unfold geminiService.latLng.
    destruct (geminiService.lat params) as [la|], (geminiService.lng params) as [ln|];
      try (split; [intros [x Hx]; discriminate|intros (a & b & Ha & Hb & _); discriminate]).
    destruct (number_truthy la) eqn:Hla, (number_truthy ln) eqn:Hln; cbn;
      (split; [intros [x Hx]; try discriminate; now exists la, ln
              |intros (a & b & [= <-] & [= <-] & Ha & Hb); try congruence; eauto]).
  - unfold geminiService.latLng.
    now destruct (geminiService.lat params), (geminiService.lng params).
Qed.

(** X3. [searchActivities] catches nothing and touches nothing: its promise
    is rejected with the fault of the constructor or of the call, unchanged,
    and is fulfilled with the empty list otherwise; up to its [await] it
    performs no effect and calls the service once, with its request. *)
Theorem searchActivities_propagates_faults (env : Vite.ImportMetaEnv)
    (params : geminiService.SearchParams) (ctor_fault : option exn)
    (answer : genai.GenerateContentParameters -> completion genai.GenerateContentResponse)
    (st : App.State) :
  Page.promise ctor_fault answer (geminiService.searchActivities env params)
  = match ctor_fault with
    | Some fault => inl fault
    | None =>
        match answer (geminiService.request params) with
        | inl fault => inl fault
        | inr _ => inr []
        end
    end
  /\ Page.performed (Page.run ctor_fault (geminiService.searchActivities env params) st) = []
  /\ Page.final (Page.run ctor_fault (geminiService.searchActivities env params) st) = st
  /\ match Page.stopped (Page.run ctor_fault (geminiService.searchActivities env params) st) with
     | Page.Suspended ai sent _ =>
         ctor_fault = None /\ sent = geminiService.request params
         /\ genai.apiKey ai = Vite.VITE_GEMINI_API_KEY env
     | Page.Finished c => exists fault, ctor_fault = Some fault /\ c = inl fault
     end.
Proof.
  destruct ctor_fault as [fault|]; cbn.
  - repeat split. now exists fault.
  - repeat split. now destruct (answer (geminiService.request params)).
Qed.

Example equator_has_no_bias :
  geminiService.latLng Cases.equator = None
  /\ geminiService.latLng Cases.north_of_equator
     = Some {| genai.latitude := S754_finite false 1 (-1);
               genai.longitude := S754_finite false 19 (-1) |}.
Proof. split; reflexivity. Qed.

(* ===================================================================== *)
(** ** Further properties: the rendering of the chunks                    *)
(* ===================================================================== *)

Lemma get_nullish (v : value) (key : string) :
  Observe.nullish v = true -> exists message, get v key = inl (TypeError message).
Proof. destruct v; try discriminate; intros _; eexists; reflexivity. Qed.

Lemma get_not_nullish (v : value) (key : string) :
  Observe.nullish v = false -> get v key = inr (member v key).
Proof. now destruct v. Qed.

Lemma truthy_not_nullish (v : value) : truthy v = true -> Observe.nullish v = false.
Proof. now destruct v. Qed.

(** A chunk that is neither [undefined] nor [null] is rendered without an
    exception: the nested reads are guarded by the truthiness tests. *)
Lemma render_chunk_not_nullish (chunk : value) (idx : nat) :
  Observe.nullish chunk = false -> exists r, App.render_chunk chunk idx = inr r.
Proof.
  intros Hchunk. unfold App.render_chunk.
  rewrite !(get_not_nullish chunk) by exact Hchunk. cbn.
  destruct (truthy (member chunk "maps")) eqn:Hmaps.
  - rewrite !(truthy_get (member chunk "maps")) by exact Hmaps. cbn. eauto.
  - destruct (truthy (member chunk "web")) eqn:Hweb; [|cbn; eauto].
    rewrite !(truthy_get (member chunk "web")) by exact Hweb. cbn. eauto.
Qed.

Lemma render_chunk_nullish (chunk : value) (idx : nat) :
  Observe.nullish chunk = true ->
  exists message, App.render_chunk chunk idx = inl (TypeError message).
Proof.
  intros Hchunk. unfold App.render_chunk.
  destruct (get_nullish chunk "maps" Hchunk) as (message & ->).
  now exists message.
Qed.

Lemma render_chunk_key (chunk : value) (idx : nat) (a : App.Anchor) :
  App.render_chunk chunk idx = inr (Some a) -> App.key a = idx.
Proof.
  unfold App.render_chunk.
  destruct (get chunk "maps") as [e|maps]; cbn; [discriminate|].
  destruct (truthy maps) eqn:Hmaps.
  - rewrite !(truthy_get maps) by exact Hmaps. cbn. now intros [= <-].
  - destruct (get chunk "web") as [e|web]; cbn; [discriminate|].
    destruct (truthy web) eqn:Hweb; [|discriminate].
    rewrite !(truthy_get web) by exact Hweb. cbn. now intros [= <-].
Qed.

Lemma map_chunks_cons (idx : nat) (chunk : value) (rest : list value) :
  App.map_chunks idx (chunk :: rest) =
  (a ← App.render_chunk chunk idx;
   others ← App.map_chunks (S idx) rest;
   mret (a :: others)).
Proof. reflexivity. Qed.

(** X4. When the rendering of the chunks completes, it has one child per
    chunk, in order, and the key of every link is the position of its chunk
    in the list: the links on the page are never more than the chunks. *)
Theorem map_chunks_positions (chunks : list value) (idx : nat)
    (children : list (option App.Anchor)) :
  App.map_chunks idx chunks = inr children ->
  length children = length chunks
  /\ (forall i a, children !! i = Some (Some a) -> App.key a = idx + i)
  /\ length (App.links (Some children)) <= length chunks.
Proof.
  revert idx children.
  induction chunks as [|chunk rest IH]; intros idx children.
  - intros [= <-]. repeat split; [|cbn; lia].
    intros i a. now rewrite lookup_nil.
  - rewrite map_chunks_cons.
    destruct (App.render_chunk chunk idx) as [e|r] eqn:Hr; cbn; [discriminate|].
    destruct (App.map_chunks (S idx) rest) as [e|others] eqn:Hrest; cbn; [discriminate|].
    intros [= <-].
    destruct (IH (S idx) others Hrest) as (Hlen & Hkeys & Hlinks).
    split; [cbn; now rewrite Hlen|]. split.
    + intros [|i] a; cbn.
      * intros [= ->]. rewrite (render_chunk_key _ _ _ Hr). lia.
      * intros Hi. rewrite (Hkeys i a Hi). lia.
    + cbn in Hlinks |- *. destruct r; cbn; lia.
Qed.

Lemma map_chunks_positions_witness :
  App.map_chunks 0 [Sample.chunkA; Sample.chunkB; Sample.chunk_other; Sample.chunkC]
  = inr [Some Sample.anchorA; Some Sample.anchorB; None; Some Sample.anchorC]
  /\ App.key Sample.anchorC = 3.
Proof.
  split; [reflexivity|].
  exact (proj1 (proj2 (map_chunks_positions
                         [Sample.chunkA; Sample.chunkB; Sample.chunk_other; Sample.chunkC]
                         0 _ eq_refl))
               3 Sample.anchorC eq_refl).
Defined.

Lemma map_chunks_outcome (chunks : list value) (idx : nat) :
  ((exists children, App.map_chunks idx chunks = inr children)
   <-> Forall (fun chunk => Observe.nullish chunk = false) chunks)
  /\ (forall e, App.map_chunks idx chunks = inl e ->
      exists message, e = TypeError message).
Proof.
  revert idx. induction chunks as [|chunk rest IH]; intros idx.
  - split; [|discriminate]. split; [constructor|]. intros _. now exists [].
  - rewrite map_chunks_cons. destruct (IH (S idx)) as (Hiff & Herr).
    destruct (Observe.nullish chunk) eqn:Hchunk.
    + destruct (render_chunk_nullish chunk idx Hchunk) as (message & ->). cbn.
      split.
      * split; [intros [children Hc]; discriminate|].
        intros Hall. apply Forall_cons in Hall as [Hc _]. congruence.
      * intros e [= <-]. now exists message.
    + destruct (render_chunk_not_nullish chunk idx Hchunk) as (r & ->). cbn.
      destruct (App.map_chunks (S idx) rest) as [e|others]; cbn.
      * split.
        -- split; [intros [children Hc]; discriminate|].
           intros Hall. apply Forall_cons in Hall as [_ Hrest].
           apply Hiff in Hrest as [children Hc]. discriminate.
        -- intros e' [= <-]. now apply Herr.
      * split; [|discriminate]. split; [|eauto].
        intros _. apply Forall_cons. split; [exact Hchunk|].
        apply Hiff. eauto.
Qed.

(** X5. The rendering of the chunks completes exactly when no chunk is
    [undefined] or [null]; otherwise it throws, and what it throws is a
    TypeError. *)
Theorem map_chunks_throws_iff_nullish (chunks : list value) (idx : nat) :
  ((exists children, App.map_chunks idx chunks = inr children)
   <-> Forall (fun chunk => Observe.nullish chunk = false) chunks)
  /\ (forall e, App.map_chunks idx chunks = inl e ->
      exists message, e = TypeError message).
Proof. apply map_chunks_outcome. Qed.

(** X6. A chunk whose [maps] is missing or falsy ([null], zero, the empty
    string) and whose [web] is truthy is rendered as a web link, built from
    the web payload. *)
Theorem web_shape_is_second (chunk maps web : value) (idx : nat) :
  get chunk "maps" = inr maps -> truthy maps = false ->
  get chunk "web" = inr web -> truthy web = true ->
  App.render_chunk chunk idx =
  inr (Some {| App.key := idx; App.href := member web "uri";
               App.icon := App.Search; App.label := member web "title" |}).
Proof. apply render_chunk_web. Qed.

Lemma web_shape_is_second_witness :
  App.render_chunk Cases.chunk_null_maps 1 = inr (Some Sample.anchorB).
Proof.
  exact (web_shape_is_second Cases.chunk_null_maps VNull
           (VObj [("uri", VStr "https://b.example/"); ("title", VStr "B")])
           1 eq_refl eq_refl eq_refl eq_refl).
Defined.

Lemma map_chunks_neither (chunks : list value) :
  Forall Shapes.neither_shape chunks ->
  forall idx, App.map_chunks idx chunks = inr (replicate (length chunks) None).
Proof.
  induction 1 as [|chunk rest Hchunk _ IH]; intros idx; [reflexivity|].
  rewrite map_chunks_cons, (render_chunk_neither chunk idx Hchunk). cbn.
  now rewrite IH.
Qed.

Lemma links_replicate_None (n : nat) : App.links (Some (replicate n None)) = [].
Proof. induction n as [|n IH]; [reflexivity|exact IH]. Qed.



(* ===================================================================== *)
(** ** Further properties: the page                                       *)
(* ===================================================================== *)

Lemma reachable_step (env : Vite.ImportMetaEnv) (page : Page.Page) (ev : Page.event) :
  Page.reachable env page -> Page.reachable env (Page.step env page ev).
Proof.
  intros (today & nextWeek & evs & ->).
  exists today, nextWeek, (evs ++ [ev])%list.
  unfold Page.exec. now rewrite fold_left_app.
Qed.

Lemma reachable_exec (env : Vite.ImportMetaEnv) (evs : list Page.event) :
  forall page, Page.reachable env page -> Page.reachable env (Page.exec env page evs).
Proof.
  induction evs as [|ev evs IH]; intros page Hreach; [exact Hreach|].
  apply IH, reachable_step, Hreach.
Qed.

(** X9. On every reachable page the submit button is disabled exactly while
    a call is in flight: it is never left disabled once the call has
    settled, and never enabled before. *)
Theorem button_follows_the_call (env : Vite.ImportMetaEnv) (page : Page.Page) :
  Page.reachable env page ->
  (App.submit_disabled (Page.state page) = true /\ length (Page.inflight page) = 1)
  \/ (App.submit_disabled (Page.state page) = false /\ Page.inflight page = []).
Proof.
  intros Hreach.
  destruct (reachable_invariant' env page Hreach)
    as [_ [[Hl Hnone]|(Hl & _ & _ & p & Hp & _)]].
  - right. now split.
  - left. split; [exact Hl|]. now rewrite Hp.
Qed.

Lemma button_follows_the_call_witness :
  App.submit_disabled
    (Page.state
       (Page.exec Sample.env Sample.page
          [Page.Submit None; Page.Settle 0 (inl Sample.fault)])) = false.
Proof.
  destruct (button_follows_the_call Sample.env _
              (sample_reachable [Page.Submit None; Page.Settle 0 (inl Sample.fault)]))
    as [[_ Hone]|[Hoff _]].
  - vm_compute in Hone. discriminate.
  - exact Hoff.
Defined.

Section Coverage.

Import Page Phase Observe.

Variable env : Vite.ImportMetaEnv.

Lemma initial_phase (today nextWeek : string) : phase (initial today nextWeek).
Proof.
  apply phase_idle; [now repeat split|reflexivity|].
  unfold submitted. cbn. apply not_elem_of_nil.
Qed.

Lemma submitted_opening (log0 rest : list effect) :
  PreventDefault ∈ (log0 ++ opening ++ rest)%list.
Proof. apply elem_of_app. right. apply elem_of_app. left. now left. Qed.

(** Every event leads from one of the four situations to one of them. *)
Lemma step_phase (page : Page) (ev : event) :
  phase page -> phase (step env page ev).
Proof.
  intros Hphase.
  assert (Hsubmit : forall ctor_fault,
            App.loading (state page) = false -> inflight page = [] ->
            phase (step env page (Submit ctor_fault))).
  { intros [fault|] Hl Hnone; unfold step, App.submit_disabled; rewrite Hl.
    - rewrite call_handleSearch_ctor_fault.
      apply phase_failed; [now split|now repeat split|apply submitted_opening].
    - destruct (call_handleSearch_suspended env page) as (k & -> & Hk).
      apply phase_searching.
      + rewrite Hnone. repeat split. eexists. split; [reflexivity|exact Hk].
      + unfold submitted. cbn [log]. rewrite <- (app_nil_r opening).
        apply submitted_opening. }
  assert (Hidle : forall i settlement,
            inflight page = [] -> step env page (Settle i settlement) = page).
  { intros i settlement Hnone. unfold step. now rewrite Hnone, lookup_nil. }
  destruct ev as [ctor_fault|i settlement|v|v|v|v|c|error].
  3-7: (destruct Hphase as [Hi Hnone Hs|Hsearch Hs|Hrest Hf Hs|r Hrest Hr Hs];
        [now apply phase_idle|now apply phase_searching|now apply phase_failed
        |now apply (phase_succeeded _ r)]).
  - (* Submit *)
    destruct Hphase as [(Hl & _) Hnone _|Hsearch Hs|[Hl Hnone] _ _|r [Hl Hnone] _ _];
      try (now apply Hsubmit).
    pose proof Hsearch as (Hl & _).
    unfold step, App.submit_disabled. rewrite Hl. now apply phase_searching.
  - (* Settle *)
    destruct Hphase as [Hi Hnone Hs|Hsearch Hs|[Hl Hnone] Hf Hs|r [Hl Hnone] Hr Hs].
    + rewrite (Hidle _ _ Hnone). now apply phase_idle.
    + pose proof Hsearch as (Hl & Hr & Hc & p & Hp & Hk).
      destruct i as [|i].
      * rewrite (settle_resumed env page 0 p settlement); [|now rewrite Hp|exact Hk].
        assert (Hs' : PreventDefault ∈ (log page ++ closing settlement)%list)
          by (apply elem_of_app; now left).
        destruct settlement as [fault|response].
        -- apply phase_failed; [split; [reflexivity|cbn; now rewrite Hp]| |exact Hs'].
           now repeat split.
        -- apply (phase_succeeded _ response);
             [split; [reflexivity|cbn; now rewrite Hp]| |exact Hs'].
           now repeat split.
      * unfold step. rewrite Hp. now apply phase_searching.
    + rewrite (Hidle _ _ Hnone). now apply phase_failed.
    + rewrite (Hidle _ _ Hnone). now apply (phase_succeeded _ r).
  - (* PositionError *)
    assert (Hkeep : submitted page ->
              submitted {| state := state page;
                           log := log page ++ [ConsoleError "Error getting location:" error];
                           inflight := inflight page;
                           unhandled := unhandled page |}).
    { intros Hs. apply elem_of_app. now left. }
    destruct Hphase as [Hi Hnone Hs|Hsearch Hs|Hrest Hf Hs|r Hrest Hr Hs].
    + apply phase_idle; [exact Hi|exact Hnone|].
      intros Hin. apply elem_of_app in Hin as [Hin|Hin]; [now apply Hs|].
      apply list_elem_of_singleton in Hin. discriminate.
    + apply phase_searching; [exact Hsearch|now apply Hkeep].
    + apply phase_failed; [exact Hrest|exact Hf|now apply Hkeep].
    + apply (phase_succeeded _ r); [exact Hrest|exact Hr|now apply Hkeep].
Qed.

Lemma exec_phase (evs : list event) :
  forall page, phase page -> phase (exec env page evs).
Proof.
  induction evs as [|ev evs IH]; intros page Hphase; [exact Hphase|].
  apply IH, step_phase, Hphase.
Qed.

End Coverage.



Lemma busy_step (env : Vite.ImportMetaEnv) (page : Page.Page) (ev : Page.event) :
  Page.reachable env page -> Page.inflight page <> [] ->
  Observe.is_settle ev = false ->
  Page.inflight (Page.step env page ev) = Page.inflight page.
Proof.
  intros Hreach Hbusy Hev.
  destruct ev as [ctor_fault|i settlement|v|v|v|v|c|error];
    try reflexivity; [|discriminate].
  destruct (Page.inflight page) as [|p rest] eqn:Hin; [easy|].
  destruct (reachable_inflight env page 0 p Hreach) as (_ & _ & _ & Hl & _);
    [now rewrite Hin|].
  unfold Page.step, App.submit_disabled. now rewrite Hl, Hin.
Qed.

(** X11. The request of a search is the one of the render at the
    submission: whatever the user edits or submits afterwards, and wherever
    the geolocation answers, the call in flight keeps the prompt and the
    configuration it was sent with, until it settles. *)
Theorem request_in_flight_is_fixed (env : Vite.ImportMetaEnv) (page : Page.Page)
    (evs : list Page.event) :
  Page.reachable env page ->
  Page.inflight page = [] ->
  Forall (fun ev => Observe.is_settle ev = false) evs ->
  Page.params <$> Page.inflight (Page.exec env (Page.step env page (Page.Submit None)) evs)
  = [App.request (Page.state page)].
Proof.
  intros Hreach Hnone Hevs.
  pose proof (reachable_step env page (Page.Submit None) Hreach) as Hreach1.
  assert (Hone : Page.params <$> Page.inflight (Page.step env page (Page.Submit None))
                 = [App.request (Page.state page)]).
  { unfold Page.step, App.submit_disabled.
    rewrite (reachable_at_rest env page Hreach Hnone).
    destruct (call_handleSearch_suspended env page) as (k & -> & _).
    cbn [Page.inflight]. now rewrite Hnone. }
  revert Hreach1 Hone. generalize (Page.step env page (Page.Submit None)).
  induction Hevs as [|ev evs Hev _ IH]; intros q Hq Hone; [exact Hone|].
  cbn [Page.exec fold_left]. apply IH; [now apply reachable_step|].
  rewrite busy_step; [exact Hone|exact Hq| |exact Hev].
  intros Hnil. rewrite Hnil in Hone. discriminate.
Qed.

Lemma request_in_flight_is_fixed_witness :
  Page.params <$>
    Page.inflight
      (Page.exec Sample.env Sample.page
         [Page.Submit None; Page.ChangeLocation "Annecy"; Page.ChangeRadius 20;
          Page.PositionFound Sample.chamonix; Page.Submit None])
  = [App.request (Page.state Sample.page)].
Proof.
  apply (request_in_flight_is_fixed Sample.env Sample.page
           [Page.ChangeLocation "Annecy"; Page.ChangeRadius 20;
            Page.PositionFound Sample.chamonix; Page.Submit None]
           (sample_reachable []) eq_refl).
  repeat constructor.
Defined.

(** X12. The guard of the single flight is the button alone: [handleSearch]
    called twice in a row leaves two calls in flight, and its [catch] does
    not clear the sources. If the first call is then fulfilled and the
    second rejected, the page ends with the error message next to the
    sources of the first response. *)
Theorem unguarded_calls_mix (env : Vite.ImportMetaEnv) (page : Page.Page)
    (response : genai.GenerateContentResponse) (fault : exn) :
  length (Page.inflight (Page.call_handleSearch env None (Page.call_handleSearch env None page)))
  = S (S (length (Page.inflight page)))
  /\ Page.state
       (Page.step env
          (Page.step env
             (Page.call_handleSearch env None (Page.call_handleSearch env None page))
             (Page.Settle (length (Page.inflight page)) (inr response)))
          (Page.Settle (length (Page.inflight page)) (inl fault)))
     = Page.perform_all
         (Phase.opening ++ Phase.opening ++
          Phase.closing (inr response) ++ Phase.closing (inl fault))
         (Page.state page)
  /\ App.result
       (Page.perform_all
          (Phase.opening ++ Phase.opening ++
           Phase.closing (inr response) ++ Phase.closing (inl fault))
          (Page.state page))
     = Some App.error_text
  /\ App.groundingChunks
       (Page.perform_all
          (Phase.opening ++ Phase.opening ++
           Phase.closing (inr response) ++ Phase.closing (inl fault))
          (Page.state page))
     = App.chunks_of response.
Proof.
  split; [apply handleSearch_is_not_guarded|]. split; [|split; reflexivity].
  destruct (call_handleSearch_suspended env page) as (k1 & -> & Hk1).
  match goal with
  | |- context [Page.call_handleSearch env None ?q] =>
      destruct (call_handleSearch_suspended env q) as (k2 & -> & Hk2)
  end.
  cbn [Page.state Page.log Page.inflight Page.unhandled].
  erewrite (settle_resumed env _ _ _ (inr response));
    [|cbn [Page.inflight]; rewrite <- app_assoc; now apply list_lookup_middle|exact Hk1].
  cbn [Page.state Page.log Page.inflight Page.unhandled].
  rewrite <- (app_assoc (Page.inflight page)). cbn [app]. rewrite delete_middle.
  erewrite (settle_resumed env _ _ _ (inl fault));
    [|cbn [Page.inflight]; now apply list_lookup_middle|exact Hk2].
  cbn [Page.state]. now rewrite !perform_all_app.
Qed.

(** X13. A failed search is shown through the programme itself: after a
    cycle that ends on a fault, of the constructor or of the call and from
    any page, the results section displays the error message as the
    programme, without a sources block. *)
Theorem error_is_shown_as_programme (env : Vite.ImportMetaEnv) (page : Page.Page)
    (fault : exn) (settlement : completion genai.GenerateContentResponse) :
  App.results_section (Page.state (Page.cycle env None (inl fault) page))
  = inr (App.Programme App.error_text None)
  /\ App.results_section (Page.state (Page.cycle env (Some fault) settlement page))
     = inr (App.Programme App.error_text None).
Proof.
  rewrite cycle_settled, cycle_ctor_fault. split; reflexivity.
Qed.

(** X14. The chunks are mapped inside the results section, outside any
    [try]: after a fulfilled search, from any page, if some chunk of the
    response is [undefined] or [null] the evaluation of the whole section
    throws a TypeError, so that the itinerary is not displayed either,
    although [handleSearch] has published it and logged no error. *)
Theorem null_chunk_breaks_the_view (env : Vite.ImportMetaEnv) (page : Page.Page)
    (response : genai.GenerateContentResponse) :
  Exists (fun chunk => Observe.nullish chunk = true) (App.chunks_of response) ->
  (exists message,
     App.results_section (Page.state (Page.cycle env None (inr response) page))
     = inl (TypeError message))
  /\ App.result (Page.state (Page.cycle env None (inr response) page))
     = Some (App.itinerary response)
  /\ Page.log (Page.cycle env None (inr response) page)
     = (Page.log page ++ Phase.opening ++
        [SetResult (Some (App.itinerary response));
         SetGroundingChunks (App.chunks_of response);
         SetLoading false])%list.
Proof.
  intros Hsome. rewrite cycle_settled.
  split; [|split; reflexivity].
  unfold App.results_section, App.sources_block.
  cbn [Page.state].
  change (App.result (Page.perform_all _ _)) with (Some (App.itinerary response)).
  change (App.groundingChunks (Page.perform_all _ _)) with (App.chunks_of response).
  cbv beta iota. rewrite itinerary_truthy.
  destruct (map_chunks_outcome (App.chunks_of response) 0) as (Hiff & Herr).
  destruct (App.chunks_of response) as [|chunk rest] eqn:Hchunks;
    [now apply Exists_nil in Hsome|].
  destruct (App.map_chunks 0 (chunk :: rest)) as [e|children] eqn:Hmap.
  - destruct (Herr e eq_refl) as (message & ->). now exists message.
  - assert (Hall : Forall (fun c => Observe.nullish c = false) (chunk :: rest))
      by (apply Hiff; eauto).
    apply Exists_exists in Hsome as (c & Hin & Hc).
    rewrite Forall_forall in Hall. specialize (Hall c Hin). congruence.
Qed.

Lemma null_chunk_breaks_the_view_witness :
  exists message,
    App.results_section
      (Page.state (Page.cycle Sample.env None (inr Cases.response_null_chunk) Sample.page))
    = inl (TypeError message).
Proof.
  apply (proj1 (null_chunk_breaks_the_view Sample.env Sample.page
                  Cases.response_null_chunk
                  (Exists_cons_tl _ (Exists_cons_hd _ VNull [] eq_refl)))).
Defined.
